(** * metapdf: a shallow embedding of [metapdf.py] and the properties of its
      specification.

    The program reads the document-information dictionary of PDF files
    through PyPDF2 and writes one semicolon-delimited table.  The embedding
    follows the source function by function:

    - Python [str] is a list of Unicode code points, [bytes] a list of octets,
      both carried by [Z];
    - a Python [dict] whose key order matters (the metadata record) is an
      association list;
    - the filesystem is a finite map from paths to file contents;
    - exceptions are values of [exn], carried by [result];
      effects (files, printed lines, exceptions) run in the monad [M] over
      the state [world];
    - what the source takes from outside is an interface: the PyPDF2 parser
      ([PdfLibrary]), the Unicode case tables behind [str.lower]
      ([UnicodeData]), [os.walk] and the text of [str(e)] ([Runtime]). *)

From Stdlib Require Import ZArith Lia Bool String Ascii DecimalString.
From stdpp Require Import base list gmap.

Local Open Scope Z_scope.
Local Open Scope list_scope.

(** ** Python values: text, bytes, exceptions *)

Module Py.

(** A string literal of the source, as code points (the literals of
    [metapdf.py] are all ASCII). *)
Definition lit (s : string) : list Z :=
  List.map (fun a => Z.of_N (N_of_ascii a)) (list_ascii_of_string s).

(** [s.startswith(p)] *)
Fixpoint startswith (s p : list Z) {struct p} : bool :=
  match p, s with
  | [], _ => true
  | _ :: _, [] => false
  | a :: p', b :: s' => (a =? b) && startswith s' p'
  end.

(** [s.endswith(p)] *)
Definition endswith (s p : list Z) : bool := startswith (rev s) (rev p).

(** [Py_UNICODE_ISSPACE]: the code points [str.strip()] removes. *)
Definition isspace (c : Z) : bool :=
  ((0x09 <=? c) && (c <=? 0x0D)) || ((0x1C <=? c) && (c <=? 0x20))
  || (c =? 0x85) || (c =? 0xA0) || (c =? 0x1680)
  || ((0x2000 <=? c) && (c <=? 0x200A))
  || (c =? 0x2028) || (c =? 0x2029) || (c =? 0x202F) || (c =? 0x205F)
  || (c =? 0x3000).

Fixpoint lstrip (s : list Z) : list Z :=
  match s with
  | c :: s' => if isspace c then lstrip s' else s
  | [] => []
  end.

Definition rstrip (s : list Z) : list Z := rev (lstrip (rev s)).

(** [s.strip()] *)
Definition strip (s : list Z) : list Z := rstrip (lstrip s).

(** Exceptions, all of them subclasses of [Exception].  The payload is what
    the model knows about the cause; the text of [str(e)] is given by the
    platform. *)
Inductive exn : Type :=
| OSError (path : list Z)                 (* open() failed on this path *)
| UnicodeDecodeError (data : list Z)      (* bytes.decode('utf-8') failed *)
| UnicodeEncodeError (text : list Z)      (* text could not be encoded *)
| AttributeError (attribute : list Z)     (* attribute access on None *)
| ValueError (fields : list (list Z))     (* csv.DictWriter: extra fields *)
| LibraryError (detail : list Z).         (* raised inside PyPDF2 *)

Inductive result (A : Type) : Type :=
| Ok (a : A)
| Raise (e : exn).
Arguments Ok {A} a.
Arguments Raise {A} e.

End Py.
Export Py.

(** ** UTF-8, as [bytes.decode('utf-8')] and the text layer of [open] use it *)

Module Utf8.

Definition is_cont (b : Z) : bool := (0x80 <=? b) && (b <=? 0xBF).

Definition in_range (lo hi b : Z) : bool := (lo <=? b) && (b <=? hi).

(** The second byte of a three- or four-byte sequence is restricted so that
    over-long forms, surrogates and code points above U+10FFFF are refused,
    as the strict decoder of CPython does. *)
Definition second_ok (b1 b2 : Z) : bool :=
  if b1 =? 0xE0 then in_range 0xA0 0xBF b2
  else if b1 =? 0xED then in_range 0x80 0x9F b2
  else if b1 =? 0xF0 then in_range 0x90 0xBF b2
  else if b1 =? 0xF4 then in_range 0x80 0x8F b2
  else is_cont b2.

Fixpoint decode (bs : list Z) : option (list Z) :=
  match bs with
  | [] => Some []
  | b1 :: t1 =>
    if in_range 0 0x7F b1 then
      match decode t1 with Some r => Some (b1 :: r) | None => None end
    else if in_range 0xC2 0xDF b1 then
      match t1 with
      | b2 :: t2 =>
        if is_cont b2 then
          match decode t2 with
          | Some r => Some (((b1 - 0xC0) * 64 + (b2 - 0x80)) :: r)
          | None => None
          end
        else None
      | _ => None
      end
    else if in_range 0xE0 0xEF b1 then
      match t1 with
      | b2 :: b3 :: t3 =>
        if second_ok b1 b2 && is_cont b3 then
          match decode t3 with
          | Some r =>
            Some (((b1 - 0xE0) * 4096 + (b2 - 0x80) * 64 + (b3 - 0x80)) :: r)
          | None => None
          end
        else None
      | _ => None
      end
    else if in_range 0xF0 0xF4 b1 then
      match t1 with
      | b2 :: b3 :: b4 :: t4 =>
        if second_ok b1 b2 && is_cont b3 && is_cont b4 then
          match decode t4 with
          | Some r =>
            Some (((b1 - 0xF0) * 262144 + (b2 - 0x80) * 4096
                   + (b3 - 0x80) * 64 + (b4 - 0x80)) :: r)
          | None => None
          end
        else None
      | _ => None
      end
    else None
  end.

(** One code point to its UTF-8 bytes; surrogates and values outside the
    Unicode range have no encoding. *)
Definition encode_char (c : Z) : option (list Z) :=
  if in_range 0 0x7F c then Some [c]
  else if in_range 0x80 0x7FF c then
    Some [0xC0 + c / 64; 0x80 + c mod 64]
  else if in_range 0xD800 0xDFFF c then None
  else if in_range 0x800 0xFFFF c then
    Some [0xE0 + c / 4096; 0x80 + (c / 64) mod 64; 0x80 + c mod 64]
  else if in_range 0x10000 0x10FFFF c then
    Some [0xF0 + c / 262144; 0x80 + (c / 4096) mod 64;
          0x80 + (c / 64) mod 64; 0x80 + c mod 64]
  else None.

Fixpoint encode (s : list Z) : option (list Z) :=
  match s with
  | [] => Some []
  | c :: s' =>
    match encode_char c, encode s' with
    | Some b, Some r => Some (b ++ r)
    | _, _ => None
    end
  end.

End Utf8.

(** [data.decode('utf-8')] *)
Definition bytes_decode (data : list Z) : result (list Z) :=
  match Utf8.decode data with
  | Some s => Ok s
  | None => Raise (UnicodeDecodeError data)
  end.


(** ** Unicode case mapping, as [str.lower] uses it *)

(** The case tables of the Unicode database: [to_lower_full] is
    [_PyUnicode_ToLowerFull] on the code points above ASCII, and
    [final_sigma s i] tells whether the capital sigma at index [i] of [s]
    ends a word. *)
Class UnicodeData : Type := {
  to_lower_full : Z -> list Z;
  final_sigma : list Z -> nat -> bool
}.

Module Unicode.

Definition ascii_lower (c : Z) : Z :=
  if (65 <=? c) && (c <=? 90) then c + 32 else c.

(** [lower_ucs4]: one code point of [s], in its context. *)
Definition lower_ucs4 `{UnicodeData} (s : list Z) (i : nat) (c : Z) : list Z :=
  if c <? 128 then [ascii_lower c]
  else if c =? 0x3A3 then [if final_sigma s i then 0x3C2 else 0x3C3]
  else to_lower_full c.

(** [s.lower()] *)
Definition lower `{UnicodeData} (s : list Z) : list Z :=
  concat (imap (lower_ucs4 s) s).

End Unicode.

(** ** The world: files, standard output, and the effect monad *)

Module Os.

(** [files] holds the regular files that can be read; [writable] tells which
    paths [open(path, 'w')] can create or truncate; [stdout] is the list of
    lines printed so far. *)
Record world : Type := World {
  files : gmap (list Z) (list Z);
  writable : list Z -> bool;
  stdout : list (list Z)
}.

(** A computation either returns or raises, and leaves a world behind. *)
Definition M (A : Type) : Type := world -> world * result A.

Definition ret {A} (a : A) : M A := fun w => (w, Ok a).

Definition raise {A} (e : exn) : M A := fun w => (w, Raise e).

Definition lift {A} (r : result A) : M A := fun w => (w, r).

Definition bind {A B} (m : M A) (k : A -> M B) : M B :=
  fun w =>
    match m w with
    | (w', Ok a) => k a w'
    | (w', Raise e) => (w', Raise e)
    end.

(** [try: body except Exception as e: handler] *)
Definition try_except {A} (body : M A) (handler : exn -> M A) : M A :=
  fun w =>
    match body w with
    | (w', Ok a) => (w', Ok a)
    | (w', Raise e) => handler e w'
    end.

(** [with open(path, 'rb') as f]: the contents the body reads from. *)
Definition open_rb (path : list Z) : M (list Z) :=
  fun w =>
    match files w !! path with
    | Some data => (w, Ok data)
    | None => (w, Raise (OSError path))
    end.

(** [open(path, 'w', newline='', encoding='utf-8')]: the file is created
    or truncated. *)
Definition open_w (path : list Z) : M unit :=
  fun w =>
    if writable w path
    then (World (<[path := []]> (files w)) (writable w) (stdout w), Ok tt)
    else (w, Raise (OSError path)).

(** [csvfile.write(text)] on a file opened by [open_w]: the text is encoded
    and appended. *)
Definition file_write (path text : list Z) : M unit :=
  fun w =>
    match Utf8.encode text with
    | Some data =>
      (World (alter (fun old => old ++ data) path (files w))
             (writable w) (stdout w), Ok tt)
    | None => (w, Raise (UnicodeEncodeError text))
    end.

(** [os.path.join(a, b)] of [posixpath]. *)
Definition path_join (a b : list Z) : list Z :=
  if startswith b (lit "/") then b
  else if (match a with [] => true | _ => false end) || endswith a (lit "/")
       then a ++ b
       else a ++ lit "/" ++ b.

(** [str(n)] for a length. *)
Definition str_of_nat (n : nat) : list Z :=
  lit (NilZero.string_of_uint (Nat.to_uint n)).

End Os.
Export Os.

Notation "'let!' x ':=' m 'in' k" := (Os.bind m (fun x => k))
  (at level 10, x name, m at level 100, k at level 200,
   format "'[v' 'let!'  x  ':='  m  'in' '/' k ']'").

(** What the interpreter and the operating system supply. *)
Class Runtime : Type := {
  (** [str(e)], as the f-string of the error message formats it *)
  exception_text : exn -> list Z;
  (** [os.walk(top)]: the triples (root, dirs, files), in walk order *)
  os_walk : world -> list Z -> list (list Z * list (list Z) * list (list Z));
  (** the lines the encoding and error handler of [sys.stdout] can take *)
  stdout_accepts : list Z -> bool
}.

(** [print(line)]: the line is encoded for standard output, which raises
    when the stream cannot take it. *)
Definition print `{Runtime} (line : list Z) : M unit :=
  fun w =>
    if stdout_accepts line
    then (World (files w) (writable w) (stdout w ++ [line]), Ok tt)
    else (w, Raise (UnicodeEncodeError line)).

(** ** Objects held in a metadata record, and the PyPDF2 interface *)

(** A [datetime.datetime]; the program only ever takes its [str()]. *)
Record datetime : Type := Datetime { datetime_str : list Z }.

(** The Python objects that can sit in a record. *)
Inductive value : Type :=
| VNone
| VStr (s : list Z)           (* a str (PyPDF2's TextStringObject is one) *)
| VDatetime (d : datetime)
| VObject (text : list Z).    (* any other object; [text] is its str() *)

(** A metadata record: a dict, in insertion order. *)
Abbreviation record := (list (list Z * value)).

Module PyPDF2.

(** [reader.metadata] when the trailer has an /Info dictionary.  The
    properties are typed as PyPDF2 declares them ([Optional[str]] for the
    text properties, [Optional[datetime]] for the two dates) and, being
    properties, may raise; [raw] is the dictionary itself, which
    [info.get(key, default)] reads without resolving the object. *)
Record DocumentInformation : Type := {
  title : result (option (list Z));
  author : result (option (list Z));
  creator : result (option (list Z));
  creation_date : result (option datetime);
  modification_date : result (option datetime);
  subject : result (option (list Z));
  producer : result (option (list Z));
  raw : gmap (list Z) value
}.

(** A [PdfReader] object; [metadata] is [None] for a document without an
    /Info dictionary. *)
Record reader : Type := {
  metadata : result (option DocumentInformation)
}.

End PyPDF2.

(** [PdfReader(f)]: parsing the stream of an open file returns a reader or
    raises. *)
Class PdfLibrary : Type := {
  PdfReader : list Z -> result PyPDF2.reader
}.

(** ** The [csv] module, as [write_csv] configures it *)

Module Csv.

Definition delimiter : Z := 59.   (* ';' *)
Definition quotechar : Z := 34.
Definition lineterminator : list Z := [13; 10].

(** The text of a field: a str as it is, [None] as the empty string, any
    other object through [str()]. *)
Definition field_text (v : value) : list Z :=
  match v with
  | VNone => []
  | VStr s => s
  | VDatetime d => datetime_str d
  | VObject text => text
  end.

(** QUOTE_MINIMAL: a field is quoted when it holds the delimiter, the quote
    character or a character of the line terminator. *)
Definition special (c : Z) : bool :=
  (c =? delimiter) || (c =? quotechar) || (c =? 13) || (c =? 10).

Definition needs_quotes (field : list Z) : bool := existsb special field.

(** [join_append]: the field as it goes into the row, quotes doubled. *)
Definition join_append (field : list Z) : list Z :=
  if needs_quotes field
  then [quotechar]
       ++ flat_map (fun c => if c =? quotechar then [quotechar; quotechar]
                             else [c]) field
       ++ [quotechar]
  else field.

Fixpoint join (sep : list Z) (parts : list (list Z)) : list Z :=
  match parts with
  | [] => []
  | [x] => x
  | x :: rest => x ++ sep ++ join sep rest
  end.

(** [writer.writerow(fields)]: the line handed to [csvfile.write].  A row
    of one empty field is written as a pair of quotes. *)
Definition row_text (fields : list (list Z)) : list Z :=
  match fields with
  | [[]] => [quotechar; quotechar]
  | _ => join [delimiter] (List.map join_append fields)
  end ++ lineterminator.

(** [rowdict.get(key, default)] *)
Fixpoint dict_get (rowdict : record) (key : list Z) (default : value) : value :=
  match rowdict with
  | [] => default
  | (k, v) :: rest =>
    if bool_decide (k = key) then v else dict_get rest key default
  end.

Definition dict_keys (d : record) : list (list Z) := List.map fst d.

(** [DictWriter._dict_to_list] with [extrasaction='raise'] and
    [restval='']. *)
Definition dict_to_list (fieldnames : list (list Z)) (rowdict : record)
  : result (list value) :=
  let wrong_fields :=
    List.filter (fun k => negb (bool_decide (k ∈ fieldnames)))
                (dict_keys rowdict) in
  match wrong_fields with
  | [] => Ok (List.map (fun key => dict_get rowdict key (VStr [])) fieldnames)
  | _ :: _ => Raise (ValueError wrong_fields)
  end.

(** [DictWriter.writerow(rowdict)] on the file at [path]. *)
Definition writerow (path : list Z) (fieldnames : list (list Z))
  (rowdict : record) : M unit :=
  let! fields := lift (dict_to_list fieldnames rowdict) in
  file_write path (row_text (List.map field_text fields)).

(** [DictWriter.writeheader()]: the row of [dict(zip(fieldnames,
    fieldnames))]. *)
Definition writeheader (path : list Z) (fieldnames : list (list Z)) : M unit :=
  writerow path fieldnames (List.map (fun k => (k, VStr k)) fieldnames).

End Csv.

(** ** The program *)

(** [ensure_csv_extension] *)
Definition ensure_csv_extension `{UnicodeData} (outputfile_name : list Z)
  : list Z :=
  if negb (endswith (Unicode.lower outputfile_name) (lit ".csv"))
  then outputfile_name ++ lit ".csv"
  else outputfile_name.

(** [extract_pdf_version] *)
Definition extract_pdf_version (pdf_path : list Z) : M (list Z) :=
  let! f := open_rb pdf_path in
  let! header := lift (bytes_decode (take 8 f)) in
  if startswith header (lit "%PDF-")
  then ret (strip (drop 5 header))
  else ret (lit "unknown").

(** Attribute access on [info], which may be [None]. *)
Definition getattr {A} (info : option PyPDF2.DocumentInformation)
  (name : string) (property : PyPDF2.DocumentInformation -> result A)
  : M A :=
  match info with
  | Some i => lift (property i)
  | None => raise (AttributeError (lit name))
  end.

(** Truth value of an [Optional[str]] and of an [Optional[datetime]]. *)
Definition truthy_text (x : option (list Z)) : bool :=
  match x with
  | Some (_ :: _) => true
  | _ => false
  end.

Definition truthy_date (x : option datetime) : bool :=
  match x with
  | Some _ => true
  | None => false
  end.

(** [info.p if info.p else ''] for a text property [p] *)
Definition text_or_empty (info : option PyPDF2.DocumentInformation)
  (name : string)
  (property : PyPDF2.DocumentInformation -> result (option (list Z)))
  : M value :=
  let! cond := getattr info name property in
  if truthy_text cond
  then let! x := getattr info name property in
       ret (match x with Some s => VStr s | None => VNone end)
  else ret (VStr []).

(** [info.p if info.p else ''] for a date property [p] *)
Definition date_or_empty (info : option PyPDF2.DocumentInformation)
  (name : string)
  (property : PyPDF2.DocumentInformation -> result (option datetime))
  : M value :=
  let! cond := getattr info name property in
  if truthy_date cond
  then let! x := getattr info name property in
       ret (match x with Some d => VDatetime d | None => VNone end)
  else ret (VStr []).

(** [info.get(key, '')] *)
Definition info_get (info : option PyPDF2.DocumentInformation)
  (key : string) : M value :=
  let! d := getattr info "get" (fun i => Ok (PyPDF2.raw i)) in
  ret (match d !! lit key with Some v => v | None => VStr [] end).

(** The body of the [try] of [extract_metadata]. *)
Definition extract_metadata_body `{PdfLibrary} (pdf_path : list Z)
  : M (option record) :=
  let! f := open_rb pdf_path in
  let! reader := lift (PdfReader f) in
  let! info := lift (PyPDF2.metadata reader) in
  let! v_title := text_or_empty info "title" PyPDF2.title in
  let! v_author := text_or_empty info "author" PyPDF2.author in
  let! v_creator := text_or_empty info "creator" PyPDF2.creator in
  let! v_created := date_or_empty info "creation_date" PyPDF2.creation_date in
  let! v_modified :=
    date_or_empty info "modification_date" PyPDF2.modification_date in
  let! v_subject := text_or_empty info "subject" PyPDF2.subject in
  let! v_keywords := info_get info "/Keywords" in
  let! v_description := info_get info "/Description" in
  let! v_producer := text_or_empty info "producer" PyPDF2.producer in
  let! v_version := extract_pdf_version pdf_path in
  ret (Some [ (lit "Title", v_title);
              (lit "Author", v_author);
              (lit "Creator", v_creator);
              (lit "Created", v_created);
              (lit "Modified", v_modified);
              (lit "Subject", v_subject);
              (lit "Keywords", v_keywords);
              (lit "Description", v_description);
              (lit "Producer", v_producer);
              (lit "PDF Version", VStr v_version) ]).

(** [extract_metadata] *)
Definition extract_metadata `{PdfLibrary} `{Runtime} (pdf_path : list Z)
  : M (option record) :=
  try_except (extract_metadata_body pdf_path)
    (fun e =>
       let! _ := print (lit "Error processing file " ++ pdf_path
                        ++ lit ": " ++ exception_text e) in
       ret None).

(** The loop of [write_csv] over the records. *)
Fixpoint write_rows (path : list Z) (keys : list (list Z))
  (metadata_list : list record) : M unit :=
  match metadata_list with
  | [] => ret tt
  | metadata :: rest =>
    let! _ := Csv.writerow path keys metadata in
    write_rows path keys rest
  end.

(** [write_csv] *)
Definition write_csv (metadata_list : list record) (output_file_name : list Z)
  : M unit :=
  match metadata_list with
  | [] => ret tt
  | first :: _ =>
    let keys := Csv.dict_keys first in
    let! _ := open_w output_file_name in
    let! _ := Csv.writeheader output_file_name keys in
    write_rows output_file_name keys metadata_list
  end.

(** Truth value of a dict: it is not empty. *)
Definition truthy_dict (d : record) : bool :=
  match d with
  | [] => false
  | _ :: _ => true
  end.

(** [process_file] *)
Definition process_file `{PdfLibrary} `{Runtime}
  (file_path output_file_name : list Z) : M unit :=
  let! metadata := extract_metadata file_path in
  match metadata with
  | Some m =>
    if truthy_dict m then
      let! _ := write_csv [m] output_file_name in
      print (lit "Metadata is saved as " ++ output_file_name ++ lit ".")
    else ret tt
  | None => ret tt
  end.

(** The inner loop of [process_directory]: the files of one directory. *)
Fixpoint walk_files `{UnicodeData} `{PdfLibrary} `{Runtime}
  (root : list Z) (files : list (list Z)) (metadata_list : list record)
  : M (list record) :=
  match files with
  | [] => ret metadata_list
  | file :: rest =>
    if endswith (Unicode.lower file) (lit ".pdf") then
      let file_path := path_join root file in
      let! metadata := extract_metadata file_path in
      match metadata with
      | Some m =>
        if truthy_dict m
        then walk_files root rest (metadata_list ++ [m])
        else walk_files root rest metadata_list
      | None => walk_files root rest metadata_list
      end
    else walk_files root rest metadata_list
  end.

(** The outer loop of [process_directory]: the triples of [os.walk]. *)
Fixpoint walk_dirs `{UnicodeData} `{PdfLibrary} `{Runtime}
  (triples : list (list Z * list (list Z) * list (list Z)))
  (metadata_list : list record) : M (list record) :=
  match triples with
  | [] => ret metadata_list
  | (root, _, files) :: rest =>
    let! metadata_list' := walk_files root files metadata_list in
    walk_dirs rest metadata_list'
  end.

(** [process_directory] *)
Definition process_directory `{UnicodeData} `{PdfLibrary} `{Runtime}
  (directory_path output_file_name : list Z) : M unit :=
  fun w =>
    (let! metadata_list := walk_dirs (os_walk w directory_path) [] in
     match metadata_list with
     | _ :: _ =>
       let! _ := write_csv metadata_list output_file_name in
       print (lit "Metadata from " ++ str_of_nat (length metadata_list)
              ++ lit " files was saved in " ++ output_file_name ++ lit ".")
     | [] => print (lit "No pdf files found in directory.")
     end) w.

(** ** Vocabulary of the specification *)

(** The fixed field list of a MetadataRecord, in order. *)
Definition FIELDS : list (list Z) :=
  List.map lit
    ["Title"; "Author"; "Creator"; "Created"; "Modified"; "Subject";
     "Keywords"; "Description"; "Producer"; "PDF Version"]%string.

(** A record with exactly the fixed fields, in the fixed order. *)
Definition uniform (r : record) : Prop := Csv.dict_keys r = FIELDS.

Definition is_str (v : value) : bool :=
  match v with
  | VStr _ => true
  | _ => false
  end.

(** What a record holds for a text property, for a date property and for
    a key read from the dictionary itself. *)
Definition text_value (x : option (list Z)) : value :=
  match x with
  | Some (c :: s) => VStr (c :: s)
  | _ => VStr []
  end.

Definition date_value (x : option datetime) : value :=
  match x with
  | Some d => VDatetime d
  | None => VStr []
  end.

Definition raw_value (info : PyPDF2.DocumentInformation) (key : string)
  : value :=
  match PyPDF2.raw info !! lit key with
  | Some v => v
  | None => VStr []
  end.

(** Text without white space at either end. *)
Definition trimmed (s : list Z) : Prop :=
  (forall c t, s = c :: t -> isspace c = false)
  /\ (forall c t, s = t ++ [c] -> isspace c = false).

(** The number of newline-terminated lines of a file that ends in a
    newline: its line feeds. *)
Definition line_count (data : list Z) : nat :=
  length (List.filter (fun b => b =? 10) data).

(** A field holds no line break. *)
Definition single_line (field : list Z) : Prop :=
  Forall (fun c => c <> 10 /\ c <> 13) field.

(** A record none of whose values renders with a line break. *)
Definition single_line_record (r : record) : Prop :=
  Forall (fun kv => single_line (Csv.field_text kv.2)) r.

(** The header row as the specification spells it. *)
Definition header_line : list Z :=
  lit "Title;Author;Creator;Created;Modified;Subject;Keywords;Description;Producer;PDF Version"
  ++ [13; 10].

(** One row per record: its values in the record's own key order, each
    quoted when it has to be, joined with the delimiter. *)
Definition row_line (r : record) : list Z :=
  Csv.join [59] (List.map (fun kv => Csv.join_append (Csv.field_text kv.2)) r)
  ++ [13; 10].

Definition table_text (records : list record) : list Z :=
  header_line ++ concat (List.map row_line records).

(** Following the specification's words: the name ends in ".csv", whatever
    the case of the three letters. *)
Definition ends_in_csv_ignoring_case (name : list Z) : Prop :=
  exists stem c s v,
    name = stem ++ [46; c; s; v]
    /\ (c = 99 \/ c = 67) /\ (s = 115 \/ s = 83) /\ (v = 118 \/ v = 86).

(** The same for ".pdf". *)
Definition ends_in_pdf_ignoring_case (name : list Z) : Prop :=
  exists stem p d f,
    name = stem ++ [46; p; d; f]
    /\ (p = 112 \/ p = 80) /\ (d = 100 \/ d = 68) /\ (f = 102 \/ f = 70).

(** The ASCII-only comparison that [lower] followed by [endswith] comes
    down to for a pattern of plain ASCII. *)
Fixpoint ci_prefix (rs rp : list Z) {struct rp} : bool :=
  match rp, rs with
  | [], _ => true
  | _ :: _, [] => false
  | a :: rp', b :: rs' =>
    (b <? 128) && (a =? Unicode.ascii_lower b) && ci_prefix rs' rp'
  end.

(** A pattern character no code point above ASCII lower-cases to. *)
Definition plain (a : Z) : Prop := a < 128 /\ a <> 105 /\ a <> 107.

(** What the Unicode tables guarantee above ASCII: a lower-casing is never
    empty, and the only ASCII letters it can produce are "i" (from U+0130)
    and "k" (from U+212A). *)
Definition lower_keeps_ascii_apart `{UnicodeData} : Prop :=
  forall c, 128 <= c ->
    to_lower_full c <> []
    /\ forall x, x ∈ to_lower_full c -> 128 <= x \/ x = 105 \/ x = 107.

(** The paths [process_directory] hands to [extract_metadata], in order. *)
Definition pdf_paths `{UnicodeData}
  (triples : list (list Z * list (list Z) * list (list Z))) : list (list Z) :=
  flat_map
    (fun t =>
       List.map (path_join t.1.1)
         (List.filter (fun file => endswith (Unicode.lower file) (lit ".pdf"))
                      t.2))
    triples.

(** What the body of [extract_metadata] comes to on a path. *)
Definition outcome `{PdfLibrary} (w : world) (pdf_path : list Z)
  : result (option record) :=
  (extract_metadata_body pdf_path w).2.

Definition parsed `{PdfLibrary} (w : world) (pdf_path : list Z) : list record :=
  match outcome w pdf_path with
  | Ok (Some m) => [m]
  | _ => []
  end.

Definition succeeded `{PdfLibrary} (w : world) (pdf_path : list Z) : bool :=
  match outcome w pdf_path with
  | Ok (Some _) => true
  | _ => false
  end.

(** Lines that standard output takes. *)
Definition printable `{Runtime} (lines : list (list Z)) : Prop :=
  Forall (fun line => stdout_accepts line = true) lines.

(** The line printed for a file whose extraction raised. *)
Definition diagnostic `{Runtime} (pdf_path : list Z) (e : exn) : list Z :=
  lit "Error processing file " ++ pdf_path ++ lit ": " ++ exception_text e.

Definition diagnostics `{PdfLibrary} `{Runtime} (w : world)
  (paths : list (list Z)) : list (list Z) :=
  flat_map
    (fun p => match outcome w p with
              | Raise e => [diagnostic p e]
              | Ok _ => []
              end)
    paths.

(** A computation that only reads the files: it leaves the world as it
    found it and its result depends on the files alone. *)
Definition read_only {A} (m : M A) : Prop :=
  forall w,
    (m w).1 = w
    /\ forall w', files w' = files w -> (m w').2 = (m w).2.

(** ** The entry point *)

(** What [os.path] tells of a path. *)
Class OsPath : Type := {
  isfile : world -> list Z -> bool;
  isdir : world -> list Z -> bool
}.

(** The namespace [parser.parse_args()] returns: [-n] is required and a
    string; [-f] and [-d] are strings or [None]. *)
Record Namespace : Type := {
  arg_name : list Z;
  arg_file : option (list Z);
  arg_directory : option (list Z)
}.

(** The condition [x and test(x)]: the argument, when it is a non-empty
    string that passes the test. *)
Definition checked (x : option (list Z)) (test : list Z -> bool)
  : option (list Z) :=
  match x with
  | Some (c :: s) => if test (c :: s) then Some (c :: s) else None
  | _ => None
  end.

(** [main], from the parsed arguments on. *)
Definition main `{UnicodeData} `{PdfLibrary} `{Runtime} `{OsPath}
  (args : Namespace) : M unit :=
  fun w =>
    let output_file_name := ensure_csv_extension (arg_name args) in
    match checked (arg_file args) (isfile w) with
    | Some file => process_file file output_file_name w
    | None =>
      match checked (arg_directory args) (isdir w) with
      | Some directory => process_directory directory output_file_name w
      | None =>
        print (lit "Please enter a valid path to a single pdffile or a directory.") w
      end
    end.

(** A computation that reads nothing but the file at [path]: it leaves the
    world as it found it and its result depends on that file alone. *)
Definition reads_only {A} (path : list Z) (m : M A) : Prop :=
  forall w,
    (m w).1 = w
    /\ forall w', files w' !! path = files w !! path -> (m w').2 = (m w).2.

(** Two worlds that differ at most in the contents of the file at
    [path]. *)
Definition same_but (path : list Z) (w w' : world) : Prop :=
  writable w' = writable w
  /\ stdout w' = stdout w
  /\ forall p, p <> path -> files w' !! p = files w !! p.

(** Two worlds with the same files but, at most, the one at [path], and
    the same writable paths; what was printed may differ. *)
Definition files_kept_but (path : list Z) (w w' : world) : Prop :=
  writable w' = writable w
  /\ forall p, p <> path -> files w' !! p = files w !! p.

(** Text made of ASCII characters. *)
Definition ascii_text (s : list Z) : Prop := Forall (fun c => 0 <= c < 128) s.

(** ** A sample platform, for running the model *)

Module Sample.

#[local] Instance unicode : UnicodeData := {|
  to_lower_full c :=
    if c =? 0x130 then [105; 0x307]
    else if c =? 0x212A then [107]
    else if (0xC0 <=? c) && (c <=? 0xDE) && negb (c =? 0xD7) then [c + 32]
    else [c];
  final_sigma _ _ := false
|}.

Definition pdf_plain : list Z := lit "%PDF-1.4 plain".
Definition pdf_dated : list Z := lit "%PDF-1.7 dated".
Definition pdf_noinfo : list Z := lit "%PDF-1.4 noinfo".
Definition pdf_twolines : list Z := lit "%PDF-1.5 twolines".
Definition png : list Z := [0x89; 80; 78; 71; 13; 10; 26; 10; 0; 0].

Definition info_of (t : option (list Z)) (created : option datetime)
  : PyPDF2.DocumentInformation := {|
  PyPDF2.title := Ok t;
  PyPDF2.author := Ok None;
  PyPDF2.creator := Ok None;
  PyPDF2.creation_date := Ok created;
  PyPDF2.modification_date := Ok None;
  PyPDF2.subject := Ok None;
  PyPDF2.producer := Ok None;
  PyPDF2.raw := ∅
|}.

Definition new_year : datetime := Datetime (lit "2024-01-01 00:00:00+00:00").

(** A stand-in for the parser: it knows four documents and refuses
    everything else. *)
#[local] Instance library : PdfLibrary := {|
  PdfReader data :=
    if bool_decide (data = pdf_plain) then
      Ok {| PyPDF2.metadata := Ok (Some (info_of (Some (lit "Report")) None)) |}
    else if bool_decide (data = pdf_dated) then
      Ok {| PyPDF2.metadata := Ok (Some (info_of None (Some new_year))) |}
    else if bool_decide (data = pdf_twolines) then
      Ok {| PyPDF2.metadata := Ok (Some (info_of (Some [97; 10; 98]) None)) |}
    else if bool_decide (data = pdf_noinfo) then
      Ok {| PyPDF2.metadata := Ok None |}
    else Raise (LibraryError (lit "EOF marker not found"))
|}.

Definition disk : gmap (list Z) (list Z) :=
  list_to_map
    [ (lit "docs/a.pdf", pdf_plain);
      (lit "docs/b.PDF", pdf_dated);
      (lit "docs/c.pdf", pdf_noinfo);
      (lit "docs/d.pdf", pdf_twolines);
      (lit "docs/e.pdf", png);
      (lit "docs/notes.txt", lit "hello") ].

#[local] Instance runtime : Runtime := {|
  exception_text e :=
    match e with
    | OSError path => lit "[Errno 2] No such file or directory: '" ++ path ++ lit "'"
    | UnicodeDecodeError _ => lit "'utf-8' codec can't decode bytes"
    | UnicodeEncodeError _ => lit "'utf-8' codec can't encode characters"
    | AttributeError name =>
      lit "'NoneType' object has no attribute '" ++ name ++ lit "'"
    | ValueError _ => lit "dict contains fields not in fieldnames"
    | LibraryError detail => detail
    end;
  os_walk _ top :=
    if bool_decide (top = lit "docs") then
      [ (lit "docs", [],
         [lit "a.pdf"; lit "b.PDF"; lit "c.pdf"; lit "notes.txt"]) ]
    else if bool_decide (top = lit "broken") then
      [ (lit "docs", [], [lit "c.pdf"; lit "e.pdf"; lit "notes.txt"]) ]
    else if bool_decide (top = lit "odd") then
      [ (lit "odd", [], [[0xDCE9] ++ lit ".pdf"]) ]
    else [];
  (* a strict UTF-8 standard output *)
  stdout_accepts line :=
    match Utf8.encode line with
    | Some _ => true
    | None => false
    end
|}.

Definition start : world := World disk (fun _ => true) [].

Definition readonly_start : world := World disk (fun _ => false) [].

Definition record_plain : record :=
  [ (lit "Title", VStr (lit "Report")); (lit "Author", VStr []);
    (lit "Creator", VStr []); (lit "Created", VStr []);
    (lit "Modified", VStr []); (lit "Subject", VStr []);
    (lit "Keywords", VStr []); (lit "Description", VStr []);
    (lit "Producer", VStr []); (lit "PDF Version", VStr (lit "1.4")) ].

Definition record_twolines : record :=
  [ (lit "Title", VStr [97; 10; 98]); (lit "Author", VStr []);
    (lit "Creator", VStr []); (lit "Created", VStr []);
    (lit "Modified", VStr []); (lit "Subject", VStr []);
    (lit "Keywords", VStr []); (lit "Description", VStr []);
    (lit "Producer", VStr []); (lit "PDF Version", VStr (lit "1.5")) ].

(** A record with a key the header does not have. *)
Definition record_extra : record :=
  record_plain ++ [(lit "Extra", VStr (lit "x"))].

#[local] Instance paths : OsPath := {|
  isfile w p := bool_decide (is_Some (files w !! p));
  isdir _ p := bool_decide (p = lit "docs" \/ p = lit "broken")
|}.

(** An /Info dictionary whose creation date the library cannot parse. *)
Definition info_bad_date : PyPDF2.DocumentInformation := {|
  PyPDF2.title := Ok (Some (lit "Report"));
  PyPDF2.author := Ok None;
  PyPDF2.creator := Ok None;
  PyPDF2.creation_date :=
    Raise (LibraryError (lit "time data 'D:2024' does not match format"));
  PyPDF2.modification_date := Ok None;
  PyPDF2.subject := Ok None;
  PyPDF2.producer := Ok None;
  PyPDF2.raw := ∅
|}.

(** A stand-in for a parser that accepts every file: one with the PDF
    signature gets the dictionary with the bad date, any other an empty
    dictionary. *)
#[local] Instance lenient : PdfLibrary := {|
  PdfReader data :=
    if startswith data (lit "%PDF-")
    then Ok {| PyPDF2.metadata := Ok (Some info_bad_date) |}
    else Ok {| PyPDF2.metadata := Ok (Some (info_of None None)) |}
|}.

(** A file whose name holds a byte that is not UTF-8, as [os.walk] hands
    it over: the byte 0xE9 becomes the lone surrogate U+DCE9. *)
Definition odd_name : list Z := lit "odd/" ++ [0xDCE9] ++ lit ".pdf".

Definition odd : world :=
  World (list_to_map [(odd_name, png)]) (fun _ => true) [].

(** A document with a byte order mark before the header. *)
Definition pdf_bom : list Z := [0xEF; 0xBB; 0xBF] ++ lit "%PDF-1.4 bom".

Definition shifted : world :=
  World (list_to_map [(lit "f.pdf", pdf_bom)]) (fun _ => true) [].

(** The same record as [record_plain], keys in the opposite order. *)
Definition record_shuffled : record := rev record_plain.

End Sample.

(** * Properties *)

(** ** Text *)

Lemma startswith_app (p t : list Z) : startswith (p ++ t) p = true.
Proof.
  induction p as [|a p IH]; simpl; [done|].
  by rewrite Z.eqb_refl, IH.
Qed.

Lemma startswith_inv (s p : list Z) :
  startswith s p = true -> exists t, s = p ++ t.
Proof.
  revert s. induction p as [|a p IH]; intros s; simpl.
  - intros _. by exists s.
  - destruct s as [|b s]; [done|].
    intros [Hab Hrest]%andb_prop.
    apply Z.eqb_eq in Hab as ->.
    destruct (IH _ Hrest) as [t ->]. by exists t.
Qed.

Lemma startswith_short (s p : list Z) :
  (length s < length p)%nat -> startswith s p = false.
Proof.
  intros Hlen. destruct (startswith s p) eqn:E; [|done].
  apply startswith_inv in E as [t ->].
  rewrite length_app in Hlen. lia.
Qed.

Lemma lstrip_length (s : list Z) : (length (lstrip s) <= length s)%nat.
Proof.
  induction s as [|c s IH]; simpl; [lia|].
  destruct (isspace c); simpl; lia.
Qed.

Lemma strip_length (s : list Z) : (length (strip s) <= length s)%nat.
Proof.
  unfold strip, rstrip. rewrite length_rev.
  etransitivity; [apply lstrip_length|].
  rewrite length_rev. apply lstrip_length.
Qed.




(** ** UTF-8 *)

(** Decoding never yields more characters than there are bytes. *)
Lemma decode_length (bs : list Z) :
  forall s, Utf8.decode bs = Some s -> (length s <= length bs)%nat.
Proof.
  induction bs as [bs IH] using (induction_ltof1 _ (@length Z)).
  unfold ltof in IH. intros s.
  destruct bs as [|b1 t1]; simpl.
  { intros [= <-]. simpl. lia. }
  repeat case_match; try discriminate; intros [= <-]; subst; simpl in *;
    match goal with
    | H : Utf8.decode ?t = Some ?r |- _ =>
      apply IH in H; simpl in *; lia
    end.
Qed.

(** ** The Version Sniffer *)

(** [extract_pdf_version] on a readable file, in one equation. *)
Lemma extract_pdf_version_eval (w : world) (path data : list Z) :
  files w !! path = Some data ->
  extract_pdf_version path w =
    (w, match Utf8.decode (take 8 data) with
        | Some header =>
          if startswith header (lit "%PDF-")
          then Ok (strip (drop 5 header))
          else Ok (lit "unknown")
        | None => Raise (UnicodeDecodeError (take 8 data))
        end).
Proof.
  intros Hfile.
  unfold extract_pdf_version, Os.bind, open_rb, lift, bytes_decode, ret.
  rewrite Hfile.
  destruct (Utf8.decode (take 8 data)) as [header|]; [|done].
  by destruct (startswith header (lit "%PDF-")).
Qed.

Lemma extract_pdf_version_missing (w : world) (path : list Z) :
  files w !! path = None ->
  extract_pdf_version path w = (w, Raise (OSError path)).
Proof.
  intros Hfile. unfold extract_pdf_version, Os.bind, open_rb.
  by rewrite Hfile.
Qed.



(** C2 fails on every readable file whose first 8 bytes are not valid
    UTF-8, such as an image or an archive: the decoding of the prefix
    raises, and the Version Sniffer leaves with [UnicodeDecodeError]
    instead of returning "unknown". *)
Theorem version_sniffer_raises_on_undecodable_prefix :
  forall (w : world) (path data : list Z),
    files w !! path = Some data ->
    Utf8.decode (take 8 data) = None ->
    extract_pdf_version path w
    = (w, Raise (UnicodeDecodeError (take 8 data)))
    /\ extract_pdf_version path w <> (w, Ok (lit "unknown")).
Proof.
  intros w path data Hfile Hdec.
  rewrite (extract_pdf_version_eval _ _ _ Hfile), Hdec. by split.
Qed.

Lemma version_sniffer_raises_on_undecodable_prefix_witness :
  startswith (take 8 Sample.png) (lit "%PDF-") = false
  /\ extract_pdf_version (lit "docs/e.pdf") Sample.start
     = (Sample.start, Raise (UnicodeDecodeError (take 8 Sample.png))).
Proof.
  split; [reflexivity|].
  apply (version_sniffer_raises_on_undecodable_prefix Sample.start
           (lit "docs/e.pdf") Sample.png).
  - vm_compute. reflexivity.
  - reflexivity.
Defined.

(** ** Lower-casing and suffixes *)

Section Lower.

Context `{U : UnicodeData}.
Hypothesis Hunicode : lower_keeps_ascii_apart.

Lemma lower_ucs4_ascii (s : list Z) (i : nat) (c : Z) :
  c < 128 -> Unicode.lower_ucs4 s i c = [Unicode.ascii_lower c].
Proof.
  intros Hc. unfold Unicode.lower_ucs4.
  by destruct (Z.ltb_spec c 128); [|lia].
Qed.

Lemma lower_ucs4_above (s : list Z) (i : nat) (c : Z) :
  128 <= c ->
  Unicode.lower_ucs4 s i c <> []
  /\ forall x, x ∈ Unicode.lower_ucs4 s i c -> 128 <= x \/ x = 105 \/ x = 107.
Proof.
  intros Hc. unfold Unicode.lower_ucs4.
  destruct (Z.ltb_spec c 128); [lia|].
  destruct (c =? 931).
  - split; [done|]. intros x Hx. apply list_elem_of_singleton in Hx.
    left. destruct (final_sigma s i); lia.
  - by apply Hunicode.
Qed.

(** A pattern of plain characters is found at the end of the lower-cased
    text exactly when it is found, ASCII case folded, at the end of the
    text itself. *)
Lemma mapped_suffix (g : nat -> Z -> list Z) :
  (forall i c, c < 128 -> g i c = [Unicode.ascii_lower c]) ->
  (forall i c, 128 <= c ->
     g i c <> [] /\ forall x, x ∈ g i c -> 128 <= x \/ x = 105 \/ x = 107) ->
  forall rp, Forall plain rp ->
  forall l, startswith (rev (concat (imap g l))) rp = ci_prefix (rev l) rp.
Proof.
  intros Hlow Hhigh rp. induction rp as [|a rp IH]; intros Hplain l.
  { done. }
  apply Forall_cons in Hplain as [Ha Hrp].
  destruct l as [|c l _] using rev_ind.
  { done. }
  rewrite imap_app, concat_app, !rev_app_distr. simpl.
  rewrite app_nil_r.
  destruct (Z.ltb_spec c 128) as [Hc|Hc].
  - rewrite Hlow by done. simpl. by rewrite IH.
  - destruct (Hhigh (length l + 0)%nat c Hc) as [Hne Hall].
    destruct (g (length l + 0)%nat c) as [|x xs] using rev_ind; [done|].
    rewrite rev_app_distr. simpl.
    assert (Hx : 128 <= x \/ x = 105 \/ x = 107).
    { apply Hall. apply elem_of_app. right. apply list_elem_of_singleton.
      done. }
    destruct Ha as (Ha1 & Ha2 & Ha3).
    destruct (Z.eqb_spec a x); [lia|done].
Qed.

Lemma endswith_lower (s p : list Z) :
  Forall plain p ->
  endswith (Unicode.lower s) p = ci_prefix (rev s) (rev p).
Proof.
  intros Hp. unfold endswith, Unicode.lower.
  apply mapped_suffix.
  - intros i c. apply lower_ucs4_ascii.
  - intros i c. apply lower_ucs4_above.
  - apply Forall_forall. intros x Hx. apply list_elem_of_In, in_rev, list_elem_of_In in Hx.
    by apply (proj1 (Forall_forall _ _) Hp).
Qed.

End Lower.

Lemma ascii_lower_inv (b a : Z) :
  a = Unicode.ascii_lower b -> b = a \/ (b = a - 32 /\ 97 <= a <= 122).
Proof.
  unfold Unicode.ascii_lower.
  destruct (Z.leb_spec 65 b), (Z.leb_spec b 90); simpl; lia.
Qed.

Lemma ci_prefix_cons_inv (rs rp : list Z) (a : Z) :
  ci_prefix rs (a :: rp) = true
  <-> exists b rs',
      rs = b :: rs' /\ b < 128 /\ a = Unicode.ascii_lower b
      /\ ci_prefix rs' rp = true.
Proof.
  split.
  - destruct rs as [|b rs']; [done|].
    change (ci_prefix (b :: rs') (a :: rp))
      with ((b <? 128) && (a =? Unicode.ascii_lower b) && ci_prefix rs' rp).
    intros [[Hb Ha]%andb_prop Hrest]%andb_prop.
    apply Z.ltb_lt in Hb. apply Z.eqb_eq in Ha. by exists b, rs'.
  - intros (b & rs' & -> & Hb & Ha & Hrest).
    change (ci_prefix (b :: rs') (a :: rp))
      with ((b <? 128) && (a =? Unicode.ascii_lower b) && ci_prefix rs' rp).
    apply Z.ltb_lt in Hb. apply Z.eqb_eq in Ha. by rewrite Hb, Ha, Hrest.
Qed.

Lemma ascii_lower_fold (x a : Z) :
  97 <= x <= 122 -> a = x \/ a = x - 32 ->
  a < 128 /\ x = Unicode.ascii_lower a.
Proof.
  intros Hx Ha. unfold Unicode.ascii_lower.
  destruct (Z.leb_spec 65 a), (Z.leb_spec a 90); simpl; lia.
Qed.

(** A dot and three letters at the end, in either case. *)
Lemma ci_prefix_extension (name : list Z) (x y z : Z) :
  97 <= x <= 122 -> 97 <= y <= 122 -> 97 <= z <= 122 ->
  ci_prefix (rev name) [z; y; x; 46] = true
  <-> exists stem a b c,
      name = stem ++ [46; a; b; c]
      /\ (a = x \/ a = x - 32) /\ (b = y \/ b = y - 32)
      /\ (c = z \/ c = z - 32).
Proof.
  intros Hx Hy Hz. split.
  - intros H.
    apply ci_prefix_cons_inv in H as (c & r1 & E1 & _ & Hc & H).
    apply ci_prefix_cons_inv in H as (b & r2 & -> & _ & Hb & H).
    apply ci_prefix_cons_inv in H as (a & r3 & -> & _ & Ha & H).
    apply ci_prefix_cons_inv in H as (d & r4 & -> & _ & Hd & _).
    apply ascii_lower_inv in Hc, Hb, Ha, Hd.
    apply (f_equal (@rev Z)) in E1. rewrite rev_involutive in E1.
    simpl in E1. repeat rewrite <- app_assoc in E1. simpl in E1.
    exists (rev r4), a, b, c.
    replace d with 46 in E1 by lia.
    split; [done|]. lia.
  - intros (stem & a & b & c & -> & Ha & Hb & Hc).
    rewrite rev_app_distr. simpl rev. simpl app.
    destruct (ascii_lower_fold x a Hx Ha) as [? ?].
    destruct (ascii_lower_fold y b Hy Hb) as [? ?].
    destruct (ascii_lower_fold z c Hz Hc) as [? ?].
    repeat (apply ci_prefix_cons_inv; eexists _, _;
            split; [reflexivity|split; [|split]]); try done.
Qed.

(** The case-folded comparison against ".csv", spelled out. *)
Lemma ci_prefix_csv (name : list Z) :
  ci_prefix (rev name) (rev (lit ".csv")) = true
  <-> ends_in_csv_ignoring_case name.
Proof.
  change (rev (lit ".csv")) with [118; 115; 99; 46].
  rewrite (ci_prefix_extension name 99 115 118) by lia.
  unfold ends_in_csv_ignoring_case. simpl. done.
Qed.

(** The same against ".pdf". *)
Lemma ci_prefix_pdf (name : list Z) :
  ci_prefix (rev name) (rev (lit ".pdf")) = true
  <-> ends_in_pdf_ignoring_case name.
Proof.
  change (rev (lit ".pdf")) with [102; 100; 112; 46].
  rewrite (ci_prefix_extension name 112 100 102) by lia.
  unfold ends_in_pdf_ignoring_case. simpl. done.
Qed.

Lemma plain_csv : Forall plain (lit ".csv").
Proof. repeat constructor; unfold plain; simpl; lia. Qed.

Lemma plain_pdf : Forall plain (lit ".pdf").
Proof. repeat constructor; unfold plain; simpl; lia. Qed.

(** The sample case table satisfies what is asked of the Unicode tables. *)
Lemma sample_unicode_ok : @lower_keeps_ascii_apart Sample.unicode.
Proof.
  intros c Hc. unfold to_lower_full, Sample.unicode.
  repeat case_match; (split; [done|]); intros x Hx;
    repeat (apply elem_of_cons in Hx as [-> | Hx]);
    try (by apply elem_of_nil in Hx); lia.
Defined.

(** ** The output name *)

(** C10: [ensure_csv_extension] appends ".csv" exactly when the name does
    not already end in ".csv" in some letter case, and otherwise returns
    the name as it is, case untouched: "report" becomes "report.csv" and
    "Report.CSV" stays. *)
Theorem ensure_csv_extension_spec `{U : UnicodeData} :
  lower_keeps_ascii_apart ->
  (forall name : list Z,
      (ends_in_csv_ignoring_case name -> ensure_csv_extension name = name)
      /\ (~ ends_in_csv_ignoring_case name ->
          ensure_csv_extension name = name ++ lit ".csv")
      /\ (ensure_csv_extension name = name ++ lit ".csv"
          <-> ~ ends_in_csv_ignoring_case name))
  /\ ensure_csv_extension (lit "report") = lit "report.csv"
  /\ ensure_csv_extension (lit "Report.CSV") = lit "Report.CSV".
Proof.
  intros Hunicode. split; [|split; reflexivity].
  intros name.
  assert (Hyes : ends_in_csv_ignoring_case name ->
                 ensure_csv_extension name = name).
  { intros Hends. unfold ensure_csv_extension.
    rewrite (endswith_lower Hunicode) by apply plain_csv.
    apply ci_prefix_csv in Hends. by rewrite Hends. }
  assert (Hno : ~ ends_in_csv_ignoring_case name ->
                ensure_csv_extension name = name ++ lit ".csv").
  { intros Hends. unfold ensure_csv_extension.
    rewrite (endswith_lower Hunicode) by apply plain_csv.
    destruct (ci_prefix (rev name) (rev (lit ".csv"))) eqn:E; [|done].
    by apply ci_prefix_csv in E. }
  split; [done|split; [done|]]. split; [|done].
  intros Happended Hends. rewrite (Hyes Hends) in Happended.
  apply (f_equal length) in Happended. rewrite length_app in Happended.
  simpl in Happended. lia.
Qed.

Lemma ensure_csv_extension_spec_witness :
  @ensure_csv_extension Sample.unicode (lit "data.Csv") = lit "data.Csv"
  /\ @ensure_csv_extension Sample.unicode [0x130; 46; 99; 115]
     = [0x130; 46; 99; 115] ++ lit ".csv".
Proof.
  destruct (@ensure_csv_extension_spec Sample.unicode sample_unicode_ok)
    as [Hall _].
  split.
  - apply (Hall (lit "data.Csv")).
    exists (lit "data"), 67, 115, 118. split; [reflexivity|lia].
  - apply (Hall [0x130; 46; 99; 115]).
    intros (stem & c & s & v & Heq & _).
    apply (f_equal (@rev Z)) in Heq. rewrite rev_app_distr in Heq.
    simpl in Heq. discriminate.
Defined.

(** ** Computations that only read *)

Lemma bind_ok {A B} (m : M A) (k : A -> M B) (w w' : world) (b : B) :
  Os.bind m k w = (w', Ok b) ->
  exists a w1, m w = (w1, Ok a) /\ k a w1 = (w', Ok b).
Proof.
  unfold Os.bind. destruct (m w) as [w1 [a|e]]; [|done].
  intros Hk. by exists a, w1.
Qed.

Lemma read_only_ret {A} (a : A) : read_only (ret a).
Proof. intros w. split; [done|]. by intros w' _. Qed.

Lemma read_only_raise {A} (e : exn) : read_only (@raise A e).
Proof. intros w. split; [done|]. by intros w' _. Qed.

Lemma read_only_lift {A} (r : result A) : read_only (lift r).
Proof. intros w. split; [done|]. by intros w' _. Qed.

Lemma read_only_open_rb (path : list Z) : read_only (open_rb path).
Proof.
  intros w. unfold open_rb. split.
  - by destruct (files w !! path).
  - intros w' ->. by destruct (files w !! path).
Qed.

Lemma read_only_bind {A B} (m : M A) (k : A -> M B) :
  read_only m -> (forall a, read_only (k a)) -> read_only (Os.bind m k).
Proof.
  intros Hm Hk w. unfold Os.bind.
  destruct (Hm w) as [Hw Hsame].
  destruct (m w) as [w1 r] eqn:E. simpl in Hw. subst w1. split.
  - destruct r as [a|e]; [apply Hk|done].
  - intros w' Hfiles. specialize (Hsame w' Hfiles).
    destruct (Hm w') as [Hw' _].
    destruct (m w') as [w1' r']. simpl in *. subst w1' r'.
    destruct r as [a|e]; [|done].
    by apply Hk.
Qed.

Create HintDb readonly.

#[local] Hint Resolve read_only_ret read_only_raise read_only_lift
  read_only_open_rb : readonly.

Ltac read_only_step :=
  first [ apply read_only_bind; [|intros ?]
        | progress auto with readonly
        | case_match ].

Lemma read_only_extract_pdf_version (path : list Z) :
  read_only (extract_pdf_version path).
Proof. unfold extract_pdf_version. repeat read_only_step. Qed.

Lemma read_only_getattr {A} info name
  (property : PyPDF2.DocumentInformation -> result A) :
  read_only (getattr info name property).
Proof. unfold getattr. repeat read_only_step. Qed.

#[local] Hint Resolve read_only_extract_pdf_version read_only_getattr
  : readonly.

Lemma read_only_text_or_empty info name property :
  read_only (text_or_empty info name property).
Proof. unfold text_or_empty. repeat read_only_step. Qed.

Lemma read_only_date_or_empty info name property :
  read_only (date_or_empty info name property).
Proof. unfold date_or_empty. repeat read_only_step. Qed.

Lemma read_only_info_get info key : read_only (info_get info key).
Proof. unfold info_get. repeat read_only_step. Qed.

#[local] Hint Resolve read_only_text_or_empty read_only_date_or_empty
  read_only_info_get : readonly.

Lemma read_only_body `{PdfLibrary} (path : list Z) :
  read_only (extract_metadata_body path).
Proof. unfold extract_metadata_body. repeat read_only_step. Qed.

(** The body of [extract_metadata] leaves the world alone, and its result
    is [outcome]. *)
Lemma body_run `{PdfLibrary} (w : world) (path : list Z) :
  extract_metadata_body path w = (w, outcome w path).
Proof.
  unfold outcome. destruct (read_only_body path w) as [Hw _].
  destruct (extract_metadata_body path w) as [w1 r]. simpl in *. by subst.
Qed.

Lemma outcome_files `{PdfLibrary} (w w' : world) (path : list Z) :
  files w' = files w -> outcome w' path = outcome w path.
Proof. intros Hf. by apply (read_only_body path w). Qed.

(** ** The Metadata Extractor *)

Lemma getattr_ok {A} info name
  (property : PyPDF2.DocumentInformation -> result A) w w' (a : A) :
  getattr info name property w = (w', Ok a) ->
  exists i, info = Some i /\ property i = Ok a /\ w' = w.
Proof.
  unfold getattr, lift, raise. destruct info as [i|]; [|done].
  intros [= <- Hp]. by exists i.
Qed.

Lemma text_or_empty_ok info name property w w' v :
  text_or_empty info name property w = (w', Ok v) ->
  exists i t,
    info = Some i /\ property i = Ok t /\ v = text_value t /\ w' = w.
Proof.
  unfold text_or_empty. intros Hrun.
  apply bind_ok in Hrun as (cond & w1 & Hattr & Hrest).
  apply getattr_ok in Hattr as (i & -> & Hp & ->).
  exists i, cond. split; [done|split; [done|]].
  destruct cond as [[|c s]|]; simpl in Hrest.
  - by injection Hrest as <- <-.
  - unfold Os.bind, getattr, lift in Hrest. rewrite Hp in Hrest.
    by injection Hrest as <- <-.
  - by injection Hrest as <- <-.
Qed.

Lemma date_or_empty_ok info name property w w' v :
  date_or_empty info name property w = (w', Ok v) ->
  exists i d,
    info = Some i /\ property i = Ok d /\ v = date_value d /\ w' = w.
Proof.
  unfold date_or_empty. intros Hrun.
  apply bind_ok in Hrun as (cond & w1 & Hattr & Hrest).
  apply getattr_ok in Hattr as (i & -> & Hp & ->).
  exists i, cond. split; [done|split; [done|]].
  destruct cond as [d|]; simpl in Hrest.
  - unfold Os.bind, getattr, lift in Hrest. rewrite Hp in Hrest.
    by injection Hrest as <- <-.
  - by injection Hrest as <- <-.
Qed.

Lemma info_get_ok info key w w' v :
  info_get info key w = (w', Ok v) ->
  exists i, info = Some i /\ v = raw_value i key /\ w' = w.
Proof.
  unfold info_get. intros Hrun.
  apply bind_ok in Hrun as (d & w1 & Hattr & Hrest).
  apply getattr_ok in Hattr as (i & -> & [= <-] & ->).
  exists i. by injection Hrest as <- <-.
Qed.

(** Everything a successful run of the body went through. *)
Lemma body_ok `{PdfLibrary} (w : world) (path : list Z) (r : option record) :
  outcome w path = Ok r ->
  exists data reader info t a c cd md s p version,
    files w !! path = Some data
    /\ PdfReader data = Ok reader
    /\ PyPDF2.metadata reader = Ok (Some info)
    /\ PyPDF2.title info = Ok t
    /\ PyPDF2.author info = Ok a
    /\ PyPDF2.creator info = Ok c
    /\ PyPDF2.creation_date info = Ok cd
    /\ PyPDF2.modification_date info = Ok md
    /\ PyPDF2.subject info = Ok s
    /\ PyPDF2.producer info = Ok p
    /\ extract_pdf_version path w = (w, Ok version)
    /\ r = Some [ (lit "Title", text_value t);
                  (lit "Author", text_value a);
                  (lit "Creator", text_value c);
                  (lit "Created", date_value cd);
                  (lit "Modified", date_value md);
                  (lit "Subject", text_value s);
                  (lit "Keywords", raw_value info "/Keywords");
                  (lit "Description", raw_value info "/Description");
                  (lit "Producer", text_value p);
                  (lit "PDF Version", VStr version) ].
Proof.
  intros Hout. pose proof (body_run w path) as Hrun. rewrite Hout in Hrun.
  unfold extract_metadata_body in Hrun.
  apply bind_ok in Hrun as (data & w1 & Hopen & Hrun).
  unfold open_rb in Hopen.
  destruct (files w !! path) as [data'|] eqn:Hfile; [|done].
  injection Hopen as <- <-.
  apply bind_ok in Hrun as (reader & w1 & [= <- Hreader] & Hrun).
  apply bind_ok in Hrun as (info & w1 & [= <- Hmeta] & Hrun).
  apply bind_ok in Hrun as (v1 & w1 & H1 & Hrun).
  apply text_or_empty_ok in H1 as (i & t & -> & Ht & -> & ->).
  apply bind_ok in Hrun as (v2 & w1 & H2 & Hrun).
  apply text_or_empty_ok in H2 as (? & a & [= <-] & Ha & -> & ->).
  apply bind_ok in Hrun as (v3 & w1 & H3 & Hrun).
  apply text_or_empty_ok in H3 as (? & c & [= <-] & Hc & -> & ->).
  apply bind_ok in Hrun as (v4 & w1 & H4 & Hrun).
  apply date_or_empty_ok in H4 as (? & cd & [= <-] & Hcd & -> & ->).
  apply bind_ok in Hrun as (v5 & w1 & H5 & Hrun).
  apply date_or_empty_ok in H5 as (? & md & [= <-] & Hmd & -> & ->).
  apply bind_ok in Hrun as (v6 & w1 & H6 & Hrun).
  apply text_or_empty_ok in H6 as (? & s & [= <-] & Hs & -> & ->).
  apply bind_ok in Hrun as (v7 & w1 & H7 & Hrun).
  apply info_get_ok in H7 as (? & [= <-] & -> & ->).
  apply bind_ok in Hrun as (v8 & w1 & H8 & Hrun).
  apply info_get_ok in H8 as (? & [= <-] & -> & ->).
  apply bind_ok in Hrun as (v9 & w1 & H9 & Hrun).
  apply text_or_empty_ok in H9 as (? & p & [= <-] & Hp & -> & ->).
  apply bind_ok in Hrun as (version & w1 & Hver & Hrun).
  pose proof (proj1 (read_only_extract_pdf_version path w)) as Hw.
  rewrite Hver in Hw. simpl in Hw. subst w1.
  injection Hrun as <-.
  by eexists _, reader, i, t, a, c, cd, md, s, p, version.
Qed.

Lemma body_record `{PdfLibrary} (w : world) (path : list Z) (r : option record) :
  outcome w path = Ok r -> exists m, r = Some m /\ uniform m.
Proof.
  intros Hout. apply body_ok in Hout
    as (data & reader & info & t & a & c & cd & md & s & p & version & Hall).
  destruct Hall as (_ & _ & _ & _ & _ & _ & _ & _ & _ & _ & _ & ->).
  eexists. split; reflexivity.
Qed.

(** [extract_metadata], in one equation. *)
Lemma extract_metadata_eval `{PdfLibrary} `{Runtime} (w : world)
  (path : list Z) :
  extract_metadata path w =
    match outcome w path with
    | Ok r => (w, Ok r)
    | Raise e =>
      if stdout_accepts (diagnostic path e)
      then (World (files w) (writable w) (stdout w ++ [diagnostic path e]),
            Ok None)
      else (w, Raise (UnicodeEncodeError (diagnostic path e)))
    end.
Proof.
  unfold extract_metadata, try_except. rewrite body_run.
  destruct (outcome w path) as [r|e]; [done|].
  unfold Os.bind, print. fold (diagnostic path e).
  by destruct (stdout_accepts (diagnostic path e)).
Qed.

(** C1 fails on every path whose extraction fails with an error line that
    standard output cannot take: the [print] of the handler raises, and
    [UnicodeEncodeError] leaves [extract_metadata] with nothing printed
    and nothing returned. *)
Theorem extract_metadata_raises_when_the_error_line_cannot_be_printed
  `{PdfLibrary} `{Runtime} :
  forall (w : world) (path : list Z) (e : exn),
    outcome w path = Raise e ->
    stdout_accepts
      (lit "Error processing file " ++ path ++ lit ": " ++ exception_text e)
    = false ->
    extract_metadata path w
    = (w,
       Raise (UnicodeEncodeError
                (lit "Error processing file " ++ path ++ lit ": "
                 ++ exception_text e))).
Proof.
  intros w path e Hout Hline. rewrite extract_metadata_eval, Hout.
  unfold diagnostic. by rewrite Hline.
Qed.

Lemma extract_metadata_raises_when_the_error_line_cannot_be_printed_witness :
  @extract_metadata Sample.library Sample.runtime Sample.odd_name Sample.odd
  = (Sample.odd,
     Raise (UnicodeEncodeError
              (lit "Error processing file " ++ Sample.odd_name
               ++ lit ": EOF marker not found"))).
Proof.
  apply (@extract_metadata_raises_when_the_error_line_cannot_be_printed
           Sample.library Sample.runtime Sample.odd Sample.odd_name
           (LibraryError (lit "EOF marker not found"))).
  - vm_compute. reflexivity.
  - vm_compute. reflexivity.
Defined.

(** Otherwise [extract_metadata] does not raise: it returns a record,
    printing nothing, or prints the error line and returns [None]. *)
Lemma extract_metadata_returns `{PdfLibrary} `{Runtime} (w : world)
  (path : list Z) :
  (forall e, outcome w path = Raise e ->
             stdout_accepts (diagnostic path e) = true) ->
  (exists m,
      outcome w path = Ok (Some m)
      /\ extract_metadata path w = (w, Ok (Some m)))
  \/ (exists e,
         outcome w path = Raise e
         /\ extract_metadata path w
            = (World (files w) (writable w)
                 (stdout w ++ [diagnostic path e]),
               Ok None)).
Proof.
  intros Hprint. rewrite extract_metadata_eval.
  destruct (outcome w path) as [r|e] eqn:Hout.
  - left. destruct (body_record _ _ _ Hout) as (m & -> & _). by exists m.
  - right. exists e. by rewrite (Hprint e eq_refl).
Qed.

(** What the record holds for "Created" is what the library gave for the
    creation date: a [datetime] when there is one. *)
Lemma created_value `{PdfLibrary} (w : world) (path : list Z) (m : record) :
  outcome w path = Ok (Some m) ->
  exists data reader info cd,
    files w !! path = Some data
    /\ PdfReader data = Ok reader
    /\ PyPDF2.metadata reader = Ok (Some info)
    /\ PyPDF2.creation_date info = Ok cd
    /\ Csv.dict_get m (lit "Created") VNone = date_value cd.
Proof.
  intros Hout. apply body_ok in Hout
    as (data & reader & info & t & a & c & cd & md & s & p & version & Hall).
  destruct Hall as (Hf & Hr & Hm & _ & _ & _ & Hcd & _ & _ & _ & _ & [= ->]).
  by exists data, reader, info, cd.
Qed.

(** The six fields that are strings whatever the document. *)
Lemma text_fields_are_str `{PdfLibrary} (w : world) (path : list Z)
  (m : record) (key : string) :
  outcome w path = Ok (Some m) ->
  key ∈ ["Title"; "Author"; "Creator"; "Subject"; "Producer";
         "PDF Version"]%string ->
  is_str (Csv.dict_get m (lit key) VNone) = true.
Proof.
  intros Hout Hkey. apply body_ok in Hout
    as (data & reader & info & t & a & c & cd & md & s & p & version & Hall).
  destruct Hall as (_ & _ & _ & _ & _ & _ & _ & _ & _ & _ & _ & [= ->]).
  repeat (apply elem_of_cons in Hkey as [-> | Hkey]);
    [| | | | | |by apply elem_of_nil in Hkey];
    try reflexivity.
  - by destruct t as [[|]|].
  - by destruct a as [[|]|].
  - by destruct c as [[|]|].
  - by destruct s as [[|]|].
  - by destruct p as [[|]|].
Qed.

(** C3 fails on every document that has a creation date: the record the
    extractor returns for it holds the [datetime] object of the library
    under "Created", not a string. *)
Theorem created_field_is_a_datetime `{PdfLibrary} `{Runtime} :
  forall (w w' : world) (path data : list Z) (reader : PyPDF2.reader)
         (info : PyPDF2.DocumentInformation) (d : datetime) (m : record),
    files w !! path = Some data ->
    PdfReader data = Ok reader ->
    PyPDF2.metadata reader = Ok (Some info) ->
    PyPDF2.creation_date info = Ok (Some d) ->
    extract_metadata path w = (w', Ok (Some m)) ->
    Csv.dict_get m (lit "Created") VNone = VDatetime d
    /\ is_str (Csv.dict_get m (lit "Created") VNone) = false.
Proof.
  intros w w' path data reader info d m Hfile Hreader Hmeta Hdate Hrun.
  rewrite extract_metadata_eval in Hrun.
  destruct (outcome w path) as [r|e] eqn:Hout;
    [|by destruct (stdout_accepts _)].
  injection Hrun as _ ->.
  apply created_value in Hout
    as (data' & reader' & info' & cd & Hf & Hr & Hm & Hcd & Hget).
  rewrite Hfile in Hf. injection Hf as <-.
  rewrite Hreader in Hr. injection Hr as <-.
  rewrite Hmeta in Hm. injection Hm as <-.
  rewrite Hdate in Hcd. injection Hcd as <-.
  by rewrite Hget.
Qed.

Lemma created_field_is_a_datetime_witness :
  exists m,
    @extract_metadata Sample.library Sample.runtime (lit "docs/b.PDF")
      Sample.start
    = (Sample.start, Ok (Some m))
    /\ Csv.dict_get m (lit "Created") VNone = VDatetime Sample.new_year
    /\ is_str (Csv.dict_get m (lit "Created") VNone) = false.
Proof.
  eexists. split.
  - rewrite extract_metadata_eval. vm_compute. reflexivity.
  - apply (@created_field_is_a_datetime Sample.library Sample.runtime
             Sample.start Sample.start (lit "docs/b.PDF") Sample.pdf_dated
             {| PyPDF2.metadata :=
                  Ok (Some (Sample.info_of None (Some Sample.new_year))) |}
             (Sample.info_of None (Some Sample.new_year))).
    + vm_compute. reflexivity.
    + reflexivity.
    + reflexivity.
    + reflexivity.
    + rewrite extract_metadata_eval. vm_compute. reflexivity.
Defined.

(** A document without an /Info dictionary: [info] is [None] and the first
    attribute access raises. *)
Lemma missing_info_raises `{PdfLibrary} (w : world) (path data : list Z)
  (reader : PyPDF2.reader) :
  files w !! path = Some data ->
  PdfReader data = Ok reader ->
  PyPDF2.metadata reader = Ok None ->
  outcome w path = Raise (AttributeError (lit "title")).
Proof.
  intros Hfile Hreader Hmeta.
  unfold outcome, extract_metadata_body, Os.bind, open_rb, lift.
  by rewrite Hfile, Hreader, Hmeta.
Qed.

(** When the library gives no value for a text property, or an empty
    one, the record holds the empty string under that field. *)
Lemma absent_title_is_empty `{PdfLibrary} (w : world) (path : list Z)
  (m : record) :
  outcome w path = Ok (Some m) ->
  exists data reader info t,
    files w !! path = Some data
    /\ PdfReader data = Ok reader
    /\ PyPDF2.metadata reader = Ok (Some info)
    /\ PyPDF2.title info = Ok t
    /\ Csv.dict_get m (lit "Title") VNone = text_value t
    /\ (t = None -> Csv.dict_get m (lit "Title") VNone = VStr []).
Proof.
  intros Hout. apply body_ok in Hout
    as (data & reader & info & t & a & c & cd & md & s & p & version & Hall).
  destruct Hall as (Hf & Hr & Hm & Ht & _ & _ & _ & _ & _ & _ & _ & [= ->]).
  exists data, reader, info, t. repeat (split; [done|]). by intros ->.
Qed.

(** C4 fails on every document that parses but has no /Info dictionary:
    all its fields are absent, yet no record is produced; the extractor
    prints the error line for the attribute it could not read, when
    standard output takes that line, and returns [None]. *)
Theorem no_info_dictionary_gives_no_record `{PdfLibrary} `{Runtime} :
  forall (w : world) (path data : list Z) (reader : PyPDF2.reader),
    files w !! path = Some data ->
    PdfReader data = Ok reader ->
    PyPDF2.metadata reader = Ok None ->
    (forall (w' : world) (m : record),
        extract_metadata path w <> (w', Ok (Some m)))
    /\ (stdout_accepts
          (lit "Error processing file " ++ path ++ lit ": "
           ++ exception_text (AttributeError (lit "title"))) = true ->
        extract_metadata path w
        = (World (files w) (writable w)
             (stdout w
              ++ [lit "Error processing file " ++ path ++ lit ": "
                  ++ exception_text (AttributeError (lit "title"))]),
           Ok None)).
Proof.
  intros w path data reader Hfile Hreader Hmeta.
  rewrite extract_metadata_eval.
  rewrite (missing_info_raises _ _ _ _ Hfile Hreader Hmeta).
  unfold diagnostic. split.
  - intros w' m. by destruct (stdout_accepts _).
  - by intros ->.
Qed.

Lemma no_info_dictionary_gives_no_record_witness :
  @extract_metadata Sample.library Sample.runtime (lit "docs/c.pdf")
    Sample.start
  = (World Sample.disk (fun _ => true)
       [lit "Error processing file docs/c.pdf: 'NoneType' object has no attribute 'title'"],
     Ok None).
Proof.
  apply (@no_info_dictionary_gives_no_record Sample.library Sample.runtime
           Sample.start (lit "docs/c.pdf") Sample.pdf_noinfo
           {| PyPDF2.metadata := Ok None |}).
  - vm_compute. reflexivity.
  - reflexivity.
  - reflexivity.
  - vm_compute. reflexivity.
Defined.

(** ** The Table Writer *)

Lemma encode_app (a b : list Z) :
  Utf8.encode (a ++ b) =
    match Utf8.encode a, Utf8.encode b with
    | Some x, Some y => Some (x ++ y)
    | _, _ => None
    end.
Proof.
  induction a as [|c a IH]; simpl.
  - by destruct (Utf8.encode b).
  - rewrite IH. destruct (Utf8.encode_char c) as [x|]; [|done].
    destruct (Utf8.encode a) as [y|]; [|done].
    destruct (Utf8.encode b) as [z|]; [|done].
    by rewrite app_assoc.
Qed.

Lemma encode_app_inv (a b data : list Z) :
  Utf8.encode (a ++ b) = Some data ->
  exists x y, Utf8.encode a = Some x /\ Utf8.encode b = Some y
              /\ data = x ++ y.
Proof.
  rewrite encode_app.
  destruct (Utf8.encode a) as [x|]; [|done].
  destruct (Utf8.encode b) as [y|]; [|done].
  intros [= <-]. by exists x, y.
Qed.

(** The bytes of a character other than the line feed hold no line
    feed. *)
Lemma encode_char_no_lf (c : Z) (bytes : list Z) :
  Utf8.encode_char c = Some bytes -> c <> 10 ->
  line_count bytes = 0%nat.
Proof.
  unfold Utf8.encode_char, Utf8.in_range.
  intros Henc Hc.
  repeat match type of Henc with
         | context [?u <=? ?v] => destruct (Z.leb_spec u v); simpl in Henc
         end; try discriminate; injection Henc as <-;
    unfold line_count; simpl;
    repeat match goal with
           | |- context [?u =? 10] =>
             destruct (Z.eqb_spec u 10) as [Heq|_];
             [exfalso; revert Heq|]
           end; try reflexivity;
    try (pose proof (Z.mod_pos_bound c 64 ltac:(lia));
         pose proof (Z.mod_pos_bound (c / 64) 64 ltac:(lia));
         pose proof (Z.mod_pos_bound (c / 4096) 64 ltac:(lia));
         pose proof (Z.div_pos c 64 ltac:(lia) ltac:(lia));
         pose proof (Z.div_pos c 4096 ltac:(lia) ltac:(lia));
         pose proof (Z.div_pos c 262144 ltac:(lia) ltac:(lia));
         lia).
Qed.

Lemma line_count_app (a b : list Z) :
  line_count (a ++ b) = (line_count a + line_count b)%nat.
Proof. unfold line_count. by rewrite List.filter_app, length_app. Qed.

(** Encoding keeps the number of lines. *)
Lemma line_count_encode (text data : list Z) :
  Utf8.encode text = Some data -> line_count data = line_count text.
Proof.
  revert data. induction text as [|c text IH]; intros data; simpl.
  { by intros [= <-]. }
  destruct (Utf8.encode_char c) as [x|] eqn:Hc; [|done].
  destruct (Utf8.encode text) as [y|]; [|done].
  intros [= <-]. rewrite line_count_app, (IH y eq_refl).
  change (c :: text) with ([c] ++ text). rewrite line_count_app. f_equal.
  destruct (Z.eq_dec c 10) as [->|Hne].
  - by injection Hc as <-.
  - rewrite (encode_char_no_lf _ _ Hc Hne). unfold line_count. simpl.
    by destruct (Z.eqb_spec c 10).
Qed.

Lemma fields_nodup : NoDup FIELDS.
Proof. apply (bool_decide_unpack (NoDup FIELDS)). vm_compute. exact I. Qed.

Lemma dict_get_cons_ne (k key : list Z) (v default : value) (rest : record) :
  k <> key ->
  Csv.dict_get ((k, v) :: rest) key default = Csv.dict_get rest key default.
Proof. intros Hne. simpl. by rewrite bool_decide_eq_false_2. Qed.

(** Reading a dict key by key, in the order of its own keys, gives its
    values in order. *)
Lemma dict_get_own_keys (r : record) (default : value) :
  NoDup (Csv.dict_keys r) ->
  List.map (fun key => Csv.dict_get r key default) (Csv.dict_keys r)
  = List.map snd r.
Proof.
  induction r as [|[k v] r IH]; [done|].
  intros [Hk Hnd]%NoDup_cons.
  change (Csv.dict_keys ((k, v) :: r)) with (k :: Csv.dict_keys r).
  simpl List.map. f_equal.
  - simpl. by rewrite bool_decide_eq_true_2.
  - rewrite <- (IH Hnd). apply map_ext_in. intros key Hkey.
    apply dict_get_cons_ne. intros ->. apply Hk. by apply list_elem_of_In.
Qed.

(** Without a key outside the header, [_dict_to_list] reads the row in
    header order, with the empty string for a key the row lacks. *)
Lemma dict_to_list_ok (fieldnames : list (list Z)) (r : record) :
  (forall k, k ∈ Csv.dict_keys r -> k ∈ fieldnames) ->
  Csv.dict_to_list fieldnames r
  = Ok (List.map (fun key => Csv.dict_get r key (VStr [])) fieldnames).
Proof.
  intros Hkeys. unfold Csv.dict_to_list.
  destruct (List.filter _ (Csv.dict_keys r)) as [|k wrong] eqn:E; [done|].
  assert (Hin : In k (k :: wrong)) by (by left).
  rewrite <- E in Hin. apply filter_In in Hin as [Hk Hwrong].
  apply list_elem_of_In, Hkeys in Hk.
  by rewrite bool_decide_eq_true_2 in Hwrong.
Qed.

(** With a key outside the header, [_dict_to_list] raises. *)
Lemma dict_to_list_extra (fieldnames : list (list Z)) (r : record)
  (k : list Z) :
  k ∈ Csv.dict_keys r -> k ∉ fieldnames ->
  exists wrong,
    Csv.dict_to_list fieldnames r = Raise (ValueError wrong) /\ k ∈ wrong.
Proof.
  intros Hk Hextra. unfold Csv.dict_to_list.
  assert (Hin : In k (List.filter
                        (fun k => negb (bool_decide (k ∈ fieldnames)))
                        (Csv.dict_keys r))).
  { apply filter_In. split; [by apply list_elem_of_In|].
    by rewrite bool_decide_eq_false_2. }
  destruct (List.filter _ (Csv.dict_keys r)) as [|k' wrong]; [done|].
  exists (k' :: wrong). split; [done|]. by apply list_elem_of_In.
Qed.

(** A row of two fields or more is the join of its fields. *)
Lemma row_text_two (x y : list Z) (l : list (list Z)) :
  Csv.row_text (x :: y :: l)
  = Csv.join [Csv.delimiter] (List.map Csv.join_append (x :: y :: l))
    ++ [13; 10].
Proof. unfold Csv.row_text. by destruct x. Qed.

(** A uniform record goes out as its row, in its own order. *)
Lemma writerow_uniform (path : list Z) (r : record) :
  uniform r -> Csv.writerow path FIELDS r = file_write path (row_line r).
Proof.
  intros Hr. unfold uniform in Hr. unfold Csv.writerow.
  rewrite dict_to_list_ok by (intros k; by rewrite Hr).
  rewrite <- Hr at 1.
  rewrite dict_get_own_keys by (rewrite Hr; apply fields_nodup).
  unfold Os.bind, lift, row_line.
  assert (Hlen : length r = 10%nat).
  { apply (f_equal length) in Hr. unfold Csv.dict_keys in Hr.
    by rewrite length_map in Hr. }
  destruct r as [|x [|y l]]; [done..|].
  rewrite !map_map. simpl List.map.
  rewrite row_text_two. simpl List.map. rewrite map_map. reflexivity.
Qed.

Lemma writeheader_fields (path : list Z) :
  Csv.writeheader path FIELDS = file_write path header_line.
Proof. reflexivity. Qed.

Lemma file_write_run (path text data : list Z) (w : world) :
  Utf8.encode text = Some data ->
  file_write path text w
  = (World (alter (fun old => old ++ data) path (files w))
           (writable w) (stdout w), Ok tt).
Proof. intros Henc. unfold file_write. by rewrite Henc. Qed.

(** Writing uniform records appends their rows to the file. *)
Lemma write_rows_uniform (path : list Z) (records : list record) :
  forall (w : world) (acc data : list Z),
    files w !! path = Some acc ->
    Forall uniform records ->
    Utf8.encode (concat (List.map row_line records)) = Some data ->
    write_rows path FIELDS records w
    = (World (<[path := acc ++ data]> (files w)) (writable w) (stdout w),
       Ok tt).
Proof.
  induction records as [|r records IH]; intros w acc data Hfile Hall Henc.
  - injection Henc as <-. unfold write_rows, ret.
    rewrite app_nil_r, insert_id by done. by destruct w.
  - apply Forall_cons in Hall as [Hr Hall].
    simpl in Henc. apply encode_app_inv in Henc as (x & y & Hx & Hy & ->).
    simpl write_rows. unfold Os.bind.
    rewrite (writerow_uniform _ _ Hr), (file_write_run _ _ _ _ Hx).
    rewrite (IH _ (acc ++ x) y); [|simpl; by rewrite lookup_alter_eq, Hfile|done..].
    simpl. by rewrite insert_alter_eq, app_assoc.
Qed.

Lemma line_count_no_lf (l : list Z) :
  Forall (fun c => c <> 10) l -> line_count l = 0%nat.
Proof.
  unfold line_count. induction 1 as [|c l Hc _ IH]; [done|].
  simpl. by destruct (Z.eqb_spec c 10).
Qed.

Lemma join_append_no_lf (field : list Z) :
  single_line field -> Forall (fun c => c <> 10) (Csv.join_append field).
Proof.
  intros Hfield. unfold Csv.join_append.
  destruct (Csv.needs_quotes field).
  - apply Forall_app. split; [by repeat constructor|].
    apply Forall_app. split; [|by repeat constructor].
    induction Hfield as [|c l [Hc _] _ IH]; [constructor|].
    simpl. destruct (c =? Csv.quotechar); simpl; repeat constructor; done.
  - eapply Forall_impl; [exact Hfield|]. by intros c [Hc _].
Qed.

Lemma join_no_lf (parts : list (list Z)) :
  Forall (Forall (fun c => c <> 10)) parts ->
  Forall (fun c => c <> 10) (Csv.join [59] parts).
Proof.
  induction 1 as [|x parts Hx Hparts IH]; [constructor|].
  simpl. destruct parts as [|y parts]; [done|].
  apply Forall_app. split; [done|]. by constructor.
Qed.

Lemma line_count_row (r : record) :
  single_line_record r -> line_count (row_line r) = 1%nat.
Proof.
  intros Hr. unfold row_line. rewrite line_count_app.
  rewrite line_count_no_lf; [done|].
  apply join_no_lf, Forall_map.
  eapply Forall_impl; [exact Hr|].
  intros kv Hkv. by apply join_append_no_lf.
Qed.

Lemma line_count_rows (records : list record) :
  Forall single_line_record records ->
  line_count (concat (List.map row_line records)) = length records.
Proof.
  induction 1 as [|r records Hr _ IH]; [done|].
  simpl. by rewrite line_count_app, line_count_row, IH.
Qed.

(** C6, as stated, fails when a value holds a line break: one uniform
    record whose title is two lines long makes a file of three lines, not
    of two. *)
Lemma write_csv_embedded_newline :
  uniform Sample.record_twolines
  /\ exists data,
      files (write_csv [Sample.record_twolines] (lit "out.csv")
               Sample.start).1 !! lit "out.csv" = Some data
      /\ line_count data = 3%nat.
Proof.
  split; [reflexivity|].
  eexists. split; [vm_compute; reflexivity|reflexivity].
Qed.

(** C6, amended: for a non-empty list of N uniform records and an output
    path that can be written, the Table Writer leaves at that path the
    UTF-8 encoding of N+1 rows, each ended by CR LF: the header row, which
    is the ten field names in order joined with ";", then one row per
    record with its values in the same order joined with ";", a value that
    holds ";", a double quote or a line break being enclosed in double
    quotes.  The file has exactly N+1 lines when no value holds a line
    break. *)
Theorem write_csv_table :
  forall (records : list record) (out data : list Z) (w : world),
    records <> [] ->
    Forall uniform records ->
    writable w out = true ->
    Utf8.encode (table_text records) = Some data ->
    write_csv records out w
    = (World (<[out := data]> (files w)) (writable w) (stdout w), Ok tt)
    /\ (Forall single_line_record records ->
        line_count data = S (length records)).
Proof.
  intros records out data w Hne Hall Hw Henc. split.
  - destruct records as [|first rest]; [done|].
    pose proof (Forall_inv Hall) as Hfirst. unfold uniform in Hfirst.
    unfold table_text in Henc.
    apply encode_app_inv in Henc as (x & y & Hx & Hy & ->).
    unfold write_csv. rewrite Hfirst, writeheader_fields.
    unfold Os.bind, open_w. rewrite Hw.
    rewrite (file_write_run _ _ _ _ Hx).
    rewrite (write_rows_uniform _ _ _ ([] ++ x) y);
      [|simpl; by rewrite lookup_alter_eq, lookup_insert_eq|done..].
    simpl. by rewrite insert_alter_eq, insert_insert_eq.
  - intros Hlines. rewrite (line_count_encode _ _ Henc).
    unfold table_text. rewrite line_count_app, line_count_rows by done.
    reflexivity.
Qed.

Lemma write_csv_table_witness :
  exists data,
    write_csv [Sample.record_plain] (lit "out.csv") Sample.start
    = (World (<[lit "out.csv" := data]> Sample.disk) (fun _ => true) [],
       Ok tt)
    /\ line_count data = 2%nat.
Proof.
  eexists.
  destruct (write_csv_table [Sample.record_plain] (lit "out.csv")
              (lit "Title;Author;Creator;Created;Modified;Subject;Keywords;Description;Producer;PDF Version"
               ++ [13; 10] ++ lit "Report;;;;;;;;;1.4" ++ [13; 10])
              Sample.start)
    as [Hrun Hlines].
  - discriminate.
  - repeat constructor.
  - reflexivity.
  - vm_compute. reflexivity.
  - split; [exact Hrun|].
    apply Hlines. repeat constructor; simpl; lia.
Defined.

(** C7: with an empty sequence of records the Table Writer does nothing;
    whatever the output path, no file is created and the file at that
    path, if there is one, is left as it was. *)
Theorem write_csv_empty :
  forall (out : list Z) (w : world), write_csv [] out w = (w, Ok tt).
Proof. reflexivity. Qed.

(** ** The Aggregator *)

Lemma truthy_uniform (m : record) : uniform m -> truthy_dict m = true.
Proof. by destruct m. Qed.

Lemma parsed_files `{PdfLibrary} (w w' : world) (path : list Z) :
  files w' = files w -> parsed w' path = parsed w path.
Proof. intros Hf. unfold parsed. by rewrite (outcome_files w w'). Qed.

Lemma diagnostics_files `{PdfLibrary} `{Runtime} (w w' : world)
  (paths : list (list Z)) :
  files w' = files w -> diagnostics w' paths = diagnostics w paths.
Proof.
  intros Hf. unfold diagnostics. apply flat_map_ext. intros p.
  by rewrite (outcome_files w w').
Qed.

Lemma parsed_all_files `{PdfLibrary} (w w' : world) (paths : list (list Z)) :
  files w' = files w ->
  flat_map (parsed w') paths = flat_map (parsed w) paths.
Proof. intros Hf. apply flat_map_ext. intros p. by apply parsed_files. Qed.

Lemma diagnostics_app `{PdfLibrary} `{Runtime} (w : world)
  (a b : list (list Z)) :
  diagnostics w (a ++ b) = diagnostics w a ++ diagnostics w b.
Proof. apply flat_map_app. Qed.

Lemma diagnostics_cons `{PdfLibrary} `{Runtime} (w : world) (p : list Z)
  (paths : list (list Z)) :
  diagnostics w (p :: paths)
  = match outcome w p with
    | Raise e => [diagnostic p e]
    | Ok _ => []
    end ++ diagnostics w paths.
Proof. reflexivity. Qed.

(** The inner loop, when standard output takes the error lines: it prints
    a line per failure, gathers the records of the files that parsed, in
    order, and touches no file. *)
Lemma walk_files_run `{UnicodeData} `{PdfLibrary} `{Runtime}
  (root : list Z) (names : list (list Z)) :
  forall (acc : list record) (w : world),
    let paths :=
      List.map (path_join root)
        (List.filter (fun file => endswith (Unicode.lower file) (lit ".pdf"))
                     names) in
    printable (diagnostics w paths) ->
    walk_files root names acc w
    = (World (files w) (writable w) (stdout w ++ diagnostics w paths),
       Ok (acc ++ flat_map (parsed w) paths)).
Proof.
  induction names as [|file names IH]; intros acc w; simpl.
  { intros _. unfold ret. rewrite !app_nil_r. by destruct w. }
  destruct (endswith (Unicode.lower file) (lit ".pdf")); [|apply IH].
  simpl List.map. rewrite diagnostics_cons. intros Hprint.
  apply Forall_app in Hprint as [Hhead Htail].
  simpl. unfold Os.bind. rewrite extract_metadata_eval.
  unfold parsed at 1.
  destruct (outcome w (path_join root file)) as [r|e] eqn:Hout.
  - destruct (body_record _ _ _ Hout) as (m & -> & Hm).
    rewrite (truthy_uniform _ Hm), IH by done.
    simpl. by rewrite <- app_assoc.
  - apply Forall_inv in Hhead. rewrite Hhead.
    rewrite IH by (by rewrite (diagnostics_files w (World _ _ _))).
    simpl.
    rewrite (diagnostics_files w (World _ _ _)),
      (parsed_all_files w (World _ _ _)) by done.
    by rewrite <- app_assoc.
Qed.

(** The outer loop, over the triples of the walk. *)
Lemma walk_dirs_run `{UnicodeData} `{PdfLibrary} `{Runtime}
  (triples : list (list Z * list (list Z) * list (list Z))) :
  forall (acc : list record) (w : world),
    printable (diagnostics w (pdf_paths triples)) ->
    walk_dirs triples acc w
    = (World (files w) (writable w)
             (stdout w ++ diagnostics w (pdf_paths triples)),
       Ok (acc ++ flat_map (parsed w) (pdf_paths triples))).
Proof.
  induction triples as [|[[root dirs] names] triples IH]; intros acc w.
  { intros _. simpl. unfold ret. rewrite !app_nil_r. by destruct w. }
  simpl pdf_paths. rewrite diagnostics_app. intros Hprint.
  apply Forall_app in Hprint as [Hhead Htail].
  simpl walk_dirs. unfold Os.bind. rewrite walk_files_run by done.
  rewrite IH by (by rewrite (diagnostics_files w (World _ _ _))).
  simpl.
  rewrite (diagnostics_files w (World _ _ _)),
      (parsed_all_files w (World _ _ _)) by done.
  rewrite flat_map_app. by rewrite <- !app_assoc.
Qed.

(** However the inner loop ends, it leaves the files alone, and the
    records it has gathered have the ten fields. *)
Lemma walk_files_keeps `{UnicodeData} `{PdfLibrary} `{Runtime}
  (root : list Z) (names : list (list Z)) :
  forall (acc : list record) (w w' : world) (res : result (list record)),
    walk_files root names acc w = (w', res) ->
    files w' = files w /\ writable w' = writable w
    /\ (Forall uniform acc ->
        forall batch, res = Ok batch -> Forall uniform batch).
Proof.
  induction names as [|file names IH]; intros acc w w' res; simpl.
  { intros [= <- <-]. repeat split. by intros Hacc batch [= <-]. }
  destruct (endswith (Unicode.lower file) (lit ".pdf")); [|apply IH].
  unfold Os.bind. rewrite extract_metadata_eval.
  destruct (outcome w (path_join root file)) as [r|e] eqn:Hout.
  - destruct (body_record _ _ _ Hout) as (m & -> & Hm).
    rewrite (truthy_uniform _ Hm). intros Hrun.
    destruct (IH _ _ _ _ Hrun) as (Hf & Hw & Hu).
    repeat split; try done. intros Hacc. apply Hu.
    apply Forall_app. split; [done|]. by constructor.
  - destruct (stdout_accepts (diagnostic (path_join root file) e)).
    + intros Hrun. destruct (IH _ _ _ _ Hrun) as (Hf & Hw & Hu).
      by repeat split.
    + intros [= <- <-]. by repeat split.
Qed.

Lemma walk_dirs_keeps `{UnicodeData} `{PdfLibrary} `{Runtime}
  (triples : list (list Z * list (list Z) * list (list Z))) :
  forall (acc : list record) (w w' : world) (res : result (list record)),
    walk_dirs triples acc w = (w', res) ->
    files w' = files w /\ writable w' = writable w
    /\ (Forall uniform acc ->
        forall batch, res = Ok batch -> Forall uniform batch).
Proof.
  induction triples as [|[[root dirs] names] triples IH];
    intros acc w w' res.
  { intros [= <- <-]. repeat split. by intros Hacc batch [= <-]. }
  simpl walk_dirs. unfold Os.bind.
  destruct (walk_files root names acc w) as [w1 [l|e]] eqn:Hfiles.
  - destruct (walk_files_keeps _ _ _ _ _ _ Hfiles) as (Hf1 & Hw1 & Hu1).
    intros Hrun. destruct (IH _ _ _ _ Hrun) as (Hf & Hw & Hu).
    repeat split; try congruence. intros Hacc. apply Hu. by apply Hu1.
  - destruct (walk_files_keeps _ _ _ _ _ _ Hfiles) as (Hf1 & Hw1 & _).
    intros [= <- <-]. by repeat split.
Qed.

(** Each path either gives a record or a line of diagnostic. *)
Lemma parsed_or_failed `{PdfLibrary} `{Runtime} (w : world)
  (paths : list (list Z)) :
  (length (List.filter (succeeded w) paths)
   + length (diagnostics w paths))%nat = length paths
  /\ length (flat_map (parsed w) paths)
     = length (List.filter (succeeded w) paths).
Proof.
  induction paths as [|p paths [IH1 IH2]]; [done|].
  simpl. assert (Hs : succeeded w p = match outcome w p with
                                      | Ok (Some _) => true
                                      | _ => false
                                      end) by done.
  rewrite Hs. unfold parsed at 1. clear Hs.
  destruct (outcome w p) as [r|e] eqn:Hout.
  - destruct (body_record _ _ _ Hout) as (m & -> & _). simpl. lia.
  - simpl. lia.
Qed.

Lemma no_success_no_record `{PdfLibrary} (w : world) (paths : list (list Z)) :
  Forall (fun p => exists e, outcome w p = Raise e) paths ->
  flat_map (parsed w) paths = [].
Proof.
  induction 1 as [|p paths [e He] _ IH]; [done|].
  simpl. unfold parsed at 1. by rewrite He.
Qed.

Lemma some_success_some_record `{PdfLibrary} (w : world)
  (paths : list (list Z)) :
  Exists (fun p => exists m, outcome w p = Ok (Some m)) paths ->
  flat_map (parsed w) paths <> [].
Proof.
  induction 1 as [p paths [m Hm]|p paths _ IH]; simpl.
  - unfold parsed at 1. by rewrite Hm.
  - intros [_ Hrest]%app_eq_nil. by apply IH.
Qed.

(** The names the walk keeps are those that end in ".pdf", in any letter
    case. *)
Lemma pdf_paths_spec `{U : UnicodeData} :
  lower_keeps_ascii_apart ->
  forall (triples : list (list Z * list (list Z) * list (list Z)))
         (p : list Z),
    p ∈ pdf_paths triples
    <-> exists root dirs names file,
        (root, dirs, names) ∈ triples /\ file ∈ names
        /\ ends_in_pdf_ignoring_case file /\ p = path_join root file.
Proof.
  intros Hunicode triples p. unfold pdf_paths.
  rewrite list_elem_of_In, in_flat_map. split.
  - intros ([[root dirs] names] & Ht & Hp). simpl in Hp.
    apply in_map_iff in Hp as (file & <- & Hfile).
    apply filter_In in Hfile as [Hfile Hpdf].
    rewrite (endswith_lower Hunicode) in Hpdf by apply plain_pdf.
    exists root, dirs, names, file.
    rewrite !list_elem_of_In. by apply ci_prefix_pdf in Hpdf.
  - intros (root & dirs & names & file & Ht & Hfile & Hpdf & ->).
    exists (root, dirs, names). split; [by apply list_elem_of_In|].
    simpl. apply in_map, filter_In. split; [by apply list_elem_of_In|].
    rewrite (endswith_lower Hunicode) by apply plain_pdf.
    by apply ci_prefix_pdf.
Qed.

Lemma printable_check `{Runtime} (lines : list (list Z)) :
  forallb stdout_accepts lines = true -> printable lines.
Proof.
  intros Hall. apply Forall_forall. intros line Hline.
  by apply (proj1 (forallb_forall _ _) Hall), list_elem_of_In.
Qed.

(** C5, as stated, fails when the table cannot be written: with two files
    parsed and an output that cannot be opened, [write_csv] raises, the
    error propagates out of directory mode and no success message is
    printed. *)
Lemma process_directory_unwritable_output :
  Exists
    (fun p => exists m, @outcome Sample.library Sample.readonly_start p
                        = Ok (Some m))
    (@pdf_paths Sample.unicode
       (@os_walk Sample.runtime Sample.readonly_start (lit "docs")))
  /\ @process_directory Sample.unicode Sample.library Sample.runtime
       (lit "docs") (lit "out.csv") Sample.readonly_start
     = (World Sample.disk (fun _ => false)
          [lit "Error processing file docs/c.pdf: 'NoneType' object has no attribute 'title'"],
        Raise (OSError (lit "out.csv"))).
Proof.
  split.
  - apply Exists_cons_hd. exists Sample.record_plain.
    vm_compute. reflexivity.
  - vm_compute. reflexivity.
Qed.

(** C5, amended: in directory mode the files handed to the extractor are
    those whose name ends in ".pdf" in any letter case.  When there is
    none, or every extraction fails, "No pdf files found in directory." is
    printed after the error lines and no file is written.  Otherwise,
    once [write_csv] has written the table, the message printed is
    "Metadata from {count} files was saved in {output}." where the count
    is the number of files that parsed; the files that failed are not
    counted.  All this for lines that standard output takes. *)
Theorem process_directory_messages `{U : UnicodeData} `{PdfLibrary}
  `{Runtime} :
  forall (w : world) (dir out : list Z),
    let paths := pdf_paths (os_walk w dir) in
    let failures := diagnostics w paths in
    (lower_keeps_ascii_apart ->
     forall p,
       p ∈ paths
       <-> exists root dirs names file,
           (root, dirs, names) ∈ os_walk w dir /\ file ∈ names
           /\ ends_in_pdf_ignoring_case file /\ p = path_join root file)
    /\ (Forall (fun p => exists e, outcome w p = Raise e) paths ->
        printable (failures ++ [lit "No pdf files found in directory."]) ->
        process_directory dir out w
        = (World (files w) (writable w)
                 (stdout w ++ failures
                  ++ [lit "No pdf files found in directory."]),
           Ok tt))
    /\ (Exists (fun p => exists m, outcome w p = Ok (Some m)) paths ->
        forall w2,
          write_csv (flat_map (parsed w) paths) out
            (World (files w) (writable w) (stdout w ++ failures))
          = (w2, Ok tt) ->
          printable
            (failures
             ++ [lit "Metadata from "
                 ++ str_of_nat (length (List.filter (succeeded w) paths))
                 ++ lit " files was saved in " ++ out ++ lit "."]) ->
          process_directory dir out w
          = (World (files w2) (writable w2)
                   (stdout w2
                    ++ [lit "Metadata from "
                        ++ str_of_nat
                             (length (List.filter (succeeded w) paths))
                        ++ lit " files was saved in " ++ out ++ lit "."]),
             Ok tt))
    /\ (length (List.filter (succeeded w) paths) + length failures)%nat
       = length paths.
Proof.
  intros w dir out paths failures.
  split; [|split; [|split]].
  - intros Hunicode p. by apply pdf_paths_spec.
  - intros Hfail [Hlines Hlast%Forall_inv]%Forall_app.
    unfold process_directory, Os.bind.
    rewrite walk_dirs_run by done. fold paths. fold failures.
    rewrite (no_success_no_record _ _ Hfail). rewrite app_nil_l.
    unfold print. rewrite Hlast. simpl. by rewrite <- app_assoc.
  - intros Hsome w2 Hwrite [Hlines Hlast%Forall_inv]%Forall_app.
    unfold process_directory, Os.bind.
    rewrite walk_dirs_run by done. fold paths. fold failures.
    pose proof (some_success_some_record _ _ Hsome) as Hne.
    pose proof (proj2 (parsed_or_failed w paths)) as Hlen.
    rewrite app_nil_l.
    destruct (flat_map (parsed w) paths) as [|m records] eqn:E; [done|].
    rewrite Hwrite. unfold print. rewrite Hlen, Hlast. done.
  - apply parsed_or_failed.
Qed.

Lemma process_directory_messages_witness :
  (exists w2,
      @process_directory Sample.unicode Sample.library Sample.runtime
        (lit "docs") (lit "out.csv") Sample.start
      = (World (files w2) (writable w2)
           (stdout w2
            ++ [lit "Metadata from " ++ str_of_nat 2
                ++ lit " files was saved in " ++ lit "out.csv" ++ lit "."]),
         Ok tt))
  /\ @process_directory Sample.unicode Sample.library Sample.runtime
       (lit "broken") (lit "out.csv") Sample.start
     = (World Sample.disk (fun _ => true)
          [lit "Error processing file docs/c.pdf: 'NoneType' object has no attribute 'title'";
           lit "Error processing file docs/e.pdf: EOF marker not found";
           lit "No pdf files found in directory."],
        Ok tt)
  /\ lit "docs/b.PDF"
     ∈ @pdf_paths Sample.unicode
         (@os_walk Sample.runtime Sample.start (lit "docs")).
Proof.
  split; [|split].
  - destruct (@process_directory_messages Sample.unicode Sample.library
                Sample.runtime Sample.start (lit "docs") (lit "out.csv"))
      as (_ & _ & Hok & _).
    eexists.
    replace 2%nat
      with (length
              (List.filter (@succeeded Sample.library Sample.start)
                 (@pdf_paths Sample.unicode
                    (@os_walk Sample.runtime Sample.start (lit "docs")))))
      by (vm_compute; reflexivity).
    apply Hok.
    + apply Exists_cons_hd. exists Sample.record_plain.
      vm_compute. reflexivity.
    + rewrite (surjective_pairing (write_csv _ _ _)). f_equal.
    + apply printable_check. vm_compute. reflexivity.
  - destruct (@process_directory_messages Sample.unicode Sample.library
                Sample.runtime Sample.start (lit "broken") (lit "out.csv"))
      as (_ & Hnone & _ & _).
    rewrite Hnone; [vm_compute; reflexivity| |].
    + repeat constructor.
      * exists (AttributeError (lit "title")). vm_compute. reflexivity.
      * exists (LibraryError (lit "EOF marker not found")).
        vm_compute. reflexivity.
    + apply printable_check. vm_compute. reflexivity.
  - destruct (@process_directory_messages Sample.unicode Sample.library
                Sample.runtime Sample.start (lit "docs") (lit "out.csv"))
      as (Hnames & _ & _ & _).
    apply (Hnames sample_unicode_ok).
    exists (lit "docs"), [],
      [lit "a.pdf"; lit "b.PDF"; lit "c.pdf"; lit "notes.txt"], (lit "b.PDF").
    split; [vm_compute; by left|].
    split; [by right; left|].
    split; [|reflexivity].
    exists (lit "b"), 80, 68, 70. split; [reflexivity|lia].
Defined.

(** ** One batch, one set of fields *)

Lemma dict_get_header (keys : list (list Z)) (key : list Z) (default : value) :
  key ∈ keys ->
  Csv.dict_get (List.map (fun k => (k, VStr k)) keys) key default = VStr key.
Proof.
  induction keys as [|k keys IH]; intros Hkey.
  { by apply elem_of_nil in Hkey. }
  simpl. destruct (decide (k = key)) as [->|Hne].
  - by rewrite bool_decide_eq_true_2.
  - rewrite bool_decide_eq_false_2 by done. apply IH.
    apply elem_of_cons in Hkey as [->|Hkey]; done.
Qed.

(** The header row is the row of the field names themselves. *)
Lemma writeheader_run (path : list Z) (keys : list (list Z)) :
  Csv.writeheader path keys = file_write path (Csv.row_text keys).
Proof.
  unfold Csv.writeheader, Csv.writerow.
  rewrite dict_to_list_ok.
  - assert (Hrow : List.map Csv.field_text
                     (List.map
                        (fun key =>
                           Csv.dict_get (List.map (fun k => (k, VStr k)) keys)
                             key (VStr [])) keys) = keys).
    { rewrite map_map.
      transitivity (List.map (fun key : list Z => key) keys);
        [|apply map_id].
      apply map_ext_in. intros key Hkey.
      by rewrite dict_get_header by (by apply list_elem_of_In). }
    unfold Os.bind, lift. by rewrite Hrow.
  - intros k. unfold Csv.dict_keys. rewrite map_map. simpl.
    by rewrite map_id.
Qed.

(** A row is either refused, and then nothing is written, or appended. *)
Lemma writerow_appends (path : list Z) (keys : list (list Z)) (r : record)
  (w w' : world) (res : result unit) (acc : list Z) :
  Csv.writerow path keys r w = (w', res) ->
  files w !! path = Some acc ->
  exists tail, files w' !! path = Some (acc ++ tail).
Proof.
  unfold Csv.writerow, Os.bind, lift, file_write. intros Hrun Hfile.
  destruct (Csv.dict_to_list keys r) as [fields|e].
  - destruct (Utf8.encode _) as [data|].
    + injection Hrun as <- _. exists data. simpl.
      by rewrite lookup_alter_eq, Hfile.
    + injection Hrun as <- _. exists []. by rewrite app_nil_r.
  - injection Hrun as <- _. exists []. by rewrite app_nil_r.
Qed.

Lemma write_rows_appends (path : list Z) (keys : list (list Z))
  (records : list record) :
  forall (w w' : world) (res : result unit) (acc : list Z),
    write_rows path keys records w = (w', res) ->
    files w !! path = Some acc ->
    exists tail, files w' !! path = Some (acc ++ tail).
Proof.
  induction records as [|r records IH]; intros w w' res acc Hrun Hfile.
  - injection Hrun as <- _. exists []. by rewrite app_nil_r.
  - simpl in Hrun. unfold Os.bind in Hrun.
    destruct (Csv.writerow path keys r w) as [w1 res1] eqn:Hrow.
    destruct (writerow_appends _ _ _ _ _ _ _ Hrow Hfile) as [t1 Ht1].
    destruct res1 as [[]|e].
    + destruct (IH _ _ _ _ Hrun Ht1) as [t2 Ht2].
      exists (t1 ++ t2). by rewrite app_assoc.
    + injection Hrun as <- _. by exists t1.
Qed.

(** The file a successful [write_csv] leaves starts with the header row,
    made of the keys of the first record alone. *)
Lemma write_csv_header (first : record) (rest : list record)
  (out : list Z) (w w' : world) :
  write_csv (first :: rest) out w = (w', Ok tt) ->
  exists head tail,
    Utf8.encode (Csv.row_text (Csv.dict_keys first)) = Some head
    /\ files w' !! out = Some (head ++ tail).
Proof.
  unfold write_csv. intros Hrun.
  apply bind_ok in Hrun as ([] & w1 & Hopen & Hrun).
  apply bind_ok in Hrun as ([] & w2 & Hhead & Hrun).
  unfold open_w in Hopen. destruct (writable w out); [|done].
  injection Hopen as <-.
  rewrite writeheader_run in Hhead. unfold file_write in Hhead.
  destruct (Utf8.encode (Csv.row_text (Csv.dict_keys first)))
    as [head|]; [|done].
  injection Hhead as <-.
  destruct (write_rows_appends _ _ _ _ _ _ head Hrun) as [tail Htail].
  { simpl. by rewrite lookup_alter_eq, lookup_insert_eq. }
  by exists head, tail.
Qed.

(** C8, as stated, fails on what the writer does with a record that
    departs from the header.  A later record with one more key is not
    dropped or shifted in silence: the writer raises [ValueError] and the
    file keeps the header and the first row.  A later record with the same
    keys in another order is written exactly as if it had the order of the
    first. *)
Lemma write_csv_departing_record :
  (write_csv [Sample.record_plain; Sample.record_extra] (lit "out.csv")
     Sample.start).2
  = Raise (ValueError [lit "Extra"])
  /\ files (write_csv [Sample.record_plain; Sample.record_extra]
              (lit "out.csv") Sample.start).1 !! lit "out.csv"
     = Utf8.encode (table_text [Sample.record_plain])
  /\ Csv.dict_keys Sample.record_shuffled <> Csv.dict_keys Sample.record_plain
  /\ write_csv [Sample.record_plain; Sample.record_shuffled] (lit "out.csv")
       Sample.start
     = write_csv [Sample.record_plain; Sample.record_plain] (lit "out.csv")
         Sample.start.
Proof.
  split; [|split; [|split]].
  - vm_compute. reflexivity.
  - vm_compute. reflexivity.
  - discriminate.
  - vm_compute. reflexivity.
Qed.

(** C8, amended: every record [extract_metadata] returns has the ten
    fields, in the fixed order, so all the records of a batch gathered by
    the directory walk share them; the header row is made of the keys of
    the first record alone.  The writer places values by key: a later
    record with a key the header lacks makes it raise [ValueError], and a
    key the record lacks is written as an empty field; nothing is dropped
    or shifted in silence. *)
Theorem records_share_the_fields `{U : UnicodeData} `{PdfLibrary}
  `{Runtime} :
  (forall (w w' : world) (path : list Z) (m : record),
      extract_metadata path w = (w', Ok (Some m)) -> uniform m)
  /\ (forall (w w' : world) triples (batch : list record),
         walk_dirs triples [] w = (w', Ok batch) -> Forall uniform batch)
  /\ (forall (first : record) (rest : list record) (out : list Z)
             (w w' : world),
         write_csv (first :: rest) out w = (w', Ok tt) ->
         exists head tail,
           Utf8.encode (Csv.row_text (Csv.dict_keys first)) = Some head
           /\ files w' !! out = Some (head ++ tail))
  /\ (forall (out : list Z) (keys : list (list Z)) (r : record) (w : world)
             (k : list Z),
         k ∈ Csv.dict_keys r -> k ∉ keys ->
         exists wrong,
           Csv.writerow out keys r w = (w, Raise (ValueError wrong))
           /\ k ∈ wrong)
  /\ (forall (out : list Z) (keys : list (list Z)) (r : record),
         (forall k, k ∈ Csv.dict_keys r -> k ∈ keys) ->
         Csv.writerow out keys r
         = file_write out
             (Csv.row_text
                (List.map
                   (fun key => Csv.field_text (Csv.dict_get r key (VStr [])))
                   keys))).
Proof.
  split; [|split; [|split; [|split]]].
  - intros w w' path m Hrun. rewrite extract_metadata_eval in Hrun.
    destruct (outcome w path) as [r|e] eqn:Hout;
      [|by destruct (stdout_accepts _)].
    injection Hrun as _ ->.
    destruct (body_record _ _ _ Hout) as (m' & [= <-] & Hm). done.
  - intros w w' triples batch Hrun.
    destruct (walk_dirs_keeps _ _ _ _ _ Hrun) as (_ & _ & Hu).
    by apply Hu.
  - intros first rest out w w'. apply write_csv_header.
  - intros out keys r w k Hk Hextra.
    destruct (dict_to_list_extra keys r k Hk Hextra) as (wrong & Hw & Hin).
    exists wrong. split; [|done].
    unfold Csv.writerow, Os.bind, lift. by rewrite Hw.
  - intros out keys r Hkeys. unfold Csv.writerow.
    rewrite (dict_to_list_ok _ _ Hkeys). unfold Os.bind, lift.
    by rewrite map_map.
Qed.

Lemma records_share_the_fields_witness :
  uniform Sample.record_plain
  /\ (exists wrong,
         Csv.writerow (lit "out.csv") FIELDS Sample.record_extra Sample.start
         = (Sample.start, Raise (ValueError wrong))
         /\ lit "Extra" ∈ wrong).
Proof.
  destruct (@records_share_the_fields Sample.unicode Sample.library
              Sample.runtime) as (Hrecord & _ & _ & Hextra & _).
  split.
  - apply (Hrecord Sample.start Sample.start (lit "docs/a.pdf")).
    rewrite extract_metadata_eval. vm_compute. reflexivity.
  - apply Hextra.
    + unfold Sample.record_extra, Csv.dict_keys. rewrite map_app.
      apply elem_of_app. right. by apply list_elem_of_singleton.
    + intros Hin. apply list_elem_of_In in Hin. vm_compute in Hin.
      repeat (destruct Hin as [Hin|Hin]; [discriminate|]).
      exact Hin.
Defined.

(** * Further properties of the program *)

(** ** The output name, again *)

Lemma ensure_csv_extension_unfold `{U : UnicodeData} (name : list Z) :
  lower_keeps_ascii_apart ->
  ensure_csv_extension name
  = if ci_prefix (rev name) (rev (lit ".csv")) then name
    else name ++ lit ".csv".
Proof.
  intros Hunicode. unfold ensure_csv_extension.
  rewrite (endswith_lower Hunicode) by apply plain_csv.
  by destruct (ci_prefix (rev name) (rev (lit ".csv"))).
Qed.

(** X1: the name [ensure_csv_extension] returns always ends in ".csv" in
    some letter case, begins with the name it was given, and is left as it
    is when normalised a second time. *)
Theorem ensure_csv_extension_idempotent `{U : UnicodeData} :
  lower_keeps_ascii_apart ->
  forall name : list Z,
    ends_in_csv_ignoring_case (ensure_csv_extension name)
    /\ ensure_csv_extension (ensure_csv_extension name)
       = ensure_csv_extension name
    /\ (ensure_csv_extension name = name
        \/ ensure_csv_extension name = name ++ lit ".csv").
Proof.
  intros Hunicode name.
  assert (Hends : ends_in_csv_ignoring_case (ensure_csv_extension name)).
  { rewrite ensure_csv_extension_unfold by done.
    destruct (ci_prefix (rev name) (rev (lit ".csv"))) eqn:E.
    - by apply ci_prefix_csv.
    - exists name, 99, 115, 118. split; [reflexivity|lia]. }
  split; [done|split].
  - rewrite (ensure_csv_extension_unfold (ensure_csv_extension name))
      by done.
    apply ci_prefix_csv in Hends. by rewrite Hends.
  - rewrite ensure_csv_extension_unfold by done.
    destruct (ci_prefix (rev name) (rev (lit ".csv"))); [by left|by right].
Qed.

Lemma ensure_csv_extension_idempotent_witness :
  @ensure_csv_extension Sample.unicode
    (@ensure_csv_extension Sample.unicode (lit "report"))
  = @ensure_csv_extension Sample.unicode (lit "report").
Proof.
  apply (@ensure_csv_extension_idempotent Sample.unicode sample_unicode_ok).
Defined.

(** ** The Version Sniffer, again *)

Lemma startswith_take (n : nat) (s p : list Z) :
  (length p <= n)%nat -> startswith (take n s) p = startswith s p.
Proof.
  revert n s. induction p as [|a p IH]; intros n s Hlen; [done|].
  simpl in Hlen. destruct n as [|n]; [lia|].
  destruct s as [|b s]; [done|]. simpl. rewrite IH by lia. done.
Qed.

Ltac bool_facts :=
  repeat match goal with
         | H : _ && _ = true |- _ => apply andb_prop in H as [? ?]
         | H : (_ <=? _) = true |- _ => apply Z.leb_le in H
         | H : (_ <=? _) = false |- _ => apply Z.leb_gt in H
         | H : (_ =? _) = true |- _ => apply Z.eqb_eq in H
         | H : (_ =? _) = false |- _ => apply Z.eqb_neq in H
         | H : _ && _ = false |- _ => apply andb_false_iff in H as [H|H]
         end.

(** The first character of decoded text is an ASCII character exactly when
    the first byte is, and then they are equal. *)
Lemma decode_head (b c a : Z) (t s : list Z) :
  Utf8.decode (b :: t) = Some (c :: s) ->
  0 <= a < 128 ->
  (a =? c) = (a =? b)
  /\ (a = b -> Utf8.decode t = Some s).
Proof.
  intros Hdec Ha. simpl in Hdec.
  unfold Utf8.second_ok, Utf8.is_cont, Utf8.in_range in Hdec.
  repeat case_match; try discriminate; injection Hdec as <- <-;
    bool_facts;
    (split;
     [match goal with
      | |- (a =? ?c) = (a =? ?b') =>
        destruct (Z.eqb_spec a c), (Z.eqb_spec a b'); try reflexivity; lia
      end
     |intros ->; first [done|lia]]).
Qed.

(** Against an ASCII pattern, the decoded text and the bytes agree. *)
Lemma decode_startswith (p : list Z) :
  ascii_text p ->
  forall bs s,
    Utf8.decode bs = Some s -> startswith s p = startswith bs p.
Proof.
  induction 1 as [|a p Ha Hp IH]; intros bs s Hdec; [done|].
  destruct bs as [|b t].
  { injection Hdec as <-. done. }
  destruct s as [|c s].
  { apply decode_length in Hdec as Hlen. simpl.
    simpl in Hdec. unfold Utf8.in_range in Hdec.
    repeat case_match; try discriminate; bool_facts;
      destruct (Z.eqb_spec a b); try reflexivity; lia. }
  destruct (decode_head _ _ _ _ _ Hdec Ha) as [Heq Htail].
  simpl. rewrite Heq. destruct (Z.eqb_spec a b) as [->|]; [|done].
  simpl. by apply IH, Htail.
Qed.

Lemma ascii_signature : ascii_text (lit "%PDF-").
Proof. repeat constructor; simpl; lia. Qed.

(** X2: the Version Sniffer looks at the first 8 bytes of the file and at
    nothing else: two readable files with the same first 8 bytes give the
    same result, be it a version, "unknown" or the decoding error. *)
Theorem version_sniffer_reads_eight_bytes :
  forall (w w' : world) (path path' data data' : list Z),
    files w !! path = Some data ->
    files w' !! path' = Some data' ->
    take 8 data = take 8 data' ->
    (extract_pdf_version path w).2 = (extract_pdf_version path' w').2.
Proof.
  intros w w' path path' data data' Hfile Hfile' Hsame.
  rewrite (extract_pdf_version_eval _ _ _ Hfile),
    (extract_pdf_version_eval _ _ _ Hfile'). simpl. by rewrite Hsame.
Qed.

Lemma version_sniffer_reads_eight_bytes_witness :
  (extract_pdf_version (lit "docs/a.pdf") Sample.start).2
  = (extract_pdf_version (lit "docs/c.pdf") Sample.start).2.
Proof.
  apply (version_sniffer_reads_eight_bytes Sample.start Sample.start
           (lit "docs/a.pdf") (lit "docs/c.pdf")
           Sample.pdf_plain Sample.pdf_noinfo);
    vm_compute; reflexivity.
Defined.

(** X3: when the first 8 bytes decode, the answer is "unknown" exactly
    when the bytes of the file do not begin with "%PDF-": the signature is
    looked for at offset 0 only, so a file with anything before it, a byte
    order mark or a blank, is not recognised. *)
Theorem version_sniffer_signature_at_offset_zero :
  forall (w : world) (path data header : list Z),
    files w !! path = Some data ->
    Utf8.decode (take 8 data) = Some header ->
    (startswith data (lit "%PDF-") = false ->
     extract_pdf_version path w = (w, Ok (lit "unknown")))
    /\ (startswith data (lit "%PDF-") = true ->
        exists version,
          extract_pdf_version path w = (w, Ok version)
          /\ version <> lit "unknown").
Proof.
  intros w path data header Hfile Hdec.
  rewrite (extract_pdf_version_eval _ _ _ Hfile), Hdec.
  rewrite (decode_startswith _ ascii_signature _ _ Hdec).
  rewrite startswith_take by (simpl; lia).
  split; intros ->; [done|].
  eexists. split; [done|].
  intros Heq. apply (f_equal length) in Heq.
  pose proof (strip_length (drop 5 header)) as Hs.
  apply decode_length in Hdec. rewrite length_take in Hdec.
  rewrite length_drop in Hs. simpl in Heq. lia.
Qed.

Lemma version_sniffer_signature_at_offset_zero_witness :
  extract_pdf_version (lit "f.pdf") Sample.shifted
  = (Sample.shifted, Ok (lit "unknown")).
Proof.
  apply (proj1 (version_sniffer_signature_at_offset_zero Sample.shifted
                  (lit "f.pdf") Sample.pdf_bom (0xFEFF :: lit "%PDF-")
                  ltac:(vm_compute; reflexivity)
                  ltac:(vm_compute; reflexivity))).
  reflexivity.
Defined.

Lemma decode_ascii (s : list Z) : ascii_text s -> Utf8.decode s = Some s.
Proof.
  induction 1 as [|c s Hc _ IH]; [done|].
  simpl. unfold Utf8.in_range.
  destruct (Z.leb_spec 0 c); [|lia].
  destruct (Z.leb_spec c 127); [|lia].
  simpl. by rewrite IH.
Qed.

Lemma strip_id (v : list Z) : trimmed v -> strip v = v.
Proof.
  intros [Hhead Hlast]. unfold strip, rstrip.
  assert (Hl : lstrip v = v).
  { destruct v as [|c t]; [done|]. simpl. by rewrite (Hhead c t). }
  rewrite Hl.
  destruct (rev v) as [|c t] eqn:E.
  { simpl. apply (f_equal (@rev Z)) in E. rewrite rev_involutive in E.
    by rewrite E. }
  simpl. rewrite (Hlast c (rev t)).
  - by rewrite <- E, rev_involutive.
  - apply (f_equal (@rev Z)) in E. by rewrite rev_involutive in E.
Qed.

(** X4: a file that begins with "%PDF-" followed by a version token of
    three ASCII characters, neither the first nor the last of them white
    space, gives exactly that token, whatever follows; a file that ends
    within the 8 bytes gives the shorter token it has. *)
Theorem version_sniffer_ascii_token :
  forall (w : world) (path v rest : list Z),
    files w !! path = Some (lit "%PDF-" ++ v ++ rest) ->
    ascii_text v ->
    trimmed v ->
    (length v = 3%nat \/ ((length v < 3)%nat /\ rest = [])) ->
    extract_pdf_version path w = (w, Ok v).
Proof.
  intros w path v rest Hfile Hascii Htrim Hlen.
  rewrite (extract_pdf_version_eval _ _ _ Hfile).
  assert (Htake : take 8 (lit "%PDF-" ++ v ++ rest) = lit "%PDF-" ++ v).
  { destruct Hlen as [Hlen|[Hlen ->]].
    - rewrite app_assoc. apply take_app_length'.
      rewrite length_app, Hlen. reflexivity.
    - rewrite app_nil_r. apply take_ge. rewrite length_app.
      change (length (lit "%PDF-")) with 5%nat. lia. }
  rewrite Htake, decode_ascii, startswith_app.
  - change (drop 5 (lit "%PDF-" ++ v)) with v. by rewrite strip_id.
  - apply Forall_app. split; [apply ascii_signature|done].
Qed.

Lemma version_sniffer_ascii_token_witness :
  extract_pdf_version (lit "docs/b.PDF") Sample.start
  = (Sample.start, Ok (lit "1.7")).
Proof.
  apply (version_sniffer_ascii_token Sample.start (lit "docs/b.PDF")
           (lit "1.7") (lit " dated")).
  - vm_compute. reflexivity.
  - repeat constructor; simpl; lia.
  - split; intros c t Heq.
    + by injection Heq as <- _.
    + change (lit "1.7") with ([49; 46] ++ [55]) in Heq.
      apply app_inj_tail in Heq as [_ <-]. reflexivity.
  - left. reflexivity.
Defined.

(** ** UTF-8 round trip *)

Lemma decode_cons (b1 : Z) (t1 : list Z) :
  Utf8.decode (b1 :: t1)
  = if Utf8.in_range 0 0x7F b1 then
      match Utf8.decode t1 with Some r => Some (b1 :: r) | None => None end
    else if Utf8.in_range 0xC2 0xDF b1 then
      match t1 with
      | b2 :: t2 =>
        if Utf8.is_cont b2 then
          match Utf8.decode t2 with
          | Some r => Some (((b1 - 0xC0) * 64 + (b2 - 0x80)) :: r)
          | None => None
          end
        else None
      | _ => None
      end
    else if Utf8.in_range 0xE0 0xEF b1 then
      match t1 with
      | b2 :: b3 :: t3 =>
        if Utf8.second_ok b1 b2 && Utf8.is_cont b3 then
          match Utf8.decode t3 with
          | Some r =>
            Some (((b1 - 0xE0) * 4096 + (b2 - 0x80) * 64 + (b3 - 0x80)) :: r)
          | None => None
          end
        else None
      | _ => None
      end
    else if Utf8.in_range 0xF0 0xF4 b1 then
      match t1 with
      | b2 :: b3 :: b4 :: t4 =>
        if Utf8.second_ok b1 b2 && Utf8.is_cont b3 && Utf8.is_cont b4 then
          match Utf8.decode t4 with
          | Some r =>
            Some (((b1 - 0xF0) * 262144 + (b2 - 0x80) * 4096
                   + (b3 - 0x80) * 64 + (b4 - 0x80)) :: r)
          | None => None
          end
        else None
      | _ => None
      end
    else None.
Proof. destruct t1 as [|? [|? [|? ?]]]; reflexivity. Qed.

Ltac decide_tests :=
  unfold Utf8.second_ok, Utf8.is_cont, Utf8.in_range;
  repeat (match goal with
          | |- context [?a =? ?b] => destruct (Z.eqb_spec a b)
          | |- context [?a <=? ?b] => destruct (Z.leb_spec a b)
          end;
          try (exfalso; Z.to_euclidean_division_equations; lia);
          cbn [andb]).

Lemma decode_encode_char (c : Z) (bytes rest r : list Z) :
  Utf8.encode_char c = Some bytes ->
  Utf8.decode rest = Some r ->
  Utf8.decode (bytes ++ rest) = Some (c :: r).
Proof.
  unfold Utf8.encode_char, Utf8.in_range. intros Henc Hrest.
  repeat match type of Henc with
         | context [if ?b then _ else _] => destruct b eqn:?
         end; try discriminate; injection Henc as <-; bool_facts;
    simpl app; rewrite decode_cons; decide_tests;
    rewrite Hrest; f_equal; f_equal;
    Z.to_euclidean_division_equations; lia.
Qed.

(** Decoding undoes encoding. *)
Lemma decode_encode (s data : list Z) :
  Utf8.encode s = Some data -> Utf8.decode data = Some s.
Proof.
  revert data. induction s as [|c s IH]; intros data; simpl.
  { by intros [= <-]. }
  destruct (Utf8.encode_char c) as [bytes|] eqn:Hc; [|done].
  destruct (Utf8.encode s) as [rest|]; [|done].
  intros [= <-]. by apply decode_encode_char, IH.
Qed.

(** ** The Metadata Extractor, again *)

Lemma reads_only_ret {A} (path : list Z) (a : A) : reads_only path (ret a).
Proof. intros w. split; [done|]. by intros w' _. Qed.

Lemma reads_only_raise {A} (path : list Z) (e : exn) :
  reads_only path (@raise A e).
Proof. intros w. split; [done|]. by intros w' _. Qed.

Lemma reads_only_lift {A} (path : list Z) (r : result A) :
  reads_only path (lift r).
Proof. intros w. split; [done|]. by intros w' _. Qed.

Lemma reads_only_open_rb (path : list Z) : reads_only path (open_rb path).
Proof.
  intros w. unfold open_rb. split.
  - by destruct (files w !! path).
  - intros w' ->. by destruct (files w !! path).
Qed.

Lemma reads_only_bind {A B} (path : list Z) (m : M A) (k : A -> M B) :
  reads_only path m -> (forall a, reads_only path (k a)) ->
  reads_only path (Os.bind m k).
Proof.
  intros Hm Hk w. unfold Os.bind.
  destruct (Hm w) as [Hw Hsame].
  destruct (m w) as [w1 r] eqn:E. simpl in Hw. subst w1. split.
  - destruct r as [a|e]; [apply Hk|done].
  - intros w' Hfile. specialize (Hsame w' Hfile).
    destruct (Hm w') as [Hw' _].
    destruct (m w') as [w1' r']. simpl in *. subst w1' r'.
    destruct r as [a|e]; [|done].
    by apply Hk.
Qed.

Create HintDb locality.

#[local] Hint Resolve reads_only_ret reads_only_raise reads_only_lift
  reads_only_open_rb : locality.

Ltac reads_only_step :=
  first [ apply reads_only_bind; [|intros ?]
        | progress auto with locality
        | case_match ].

Lemma reads_only_body `{PdfLibrary} (path : list Z) :
  reads_only path (extract_metadata_body path).
Proof.
  unfold extract_metadata_body, extract_pdf_version, text_or_empty,
    date_or_empty, info_get, getattr.
  repeat reads_only_step.
Qed.

(** The outcome on a path is decided by the file at that path. *)
Lemma outcome_lookup `{PdfLibrary} (w w' : world) (path : list Z) :
  files w' !! path = files w !! path -> outcome w' path = outcome w path.
Proof. intros Hf. by apply (reads_only_body path w). Qed.

Lemma text_or_empty_run (i : PyPDF2.DocumentInformation) name property t
  (w : world) :
  property i = Ok t ->
  text_or_empty (Some i) name property w = (w, Ok (text_value t)).
Proof.
  intros Hp. unfold text_or_empty, Os.bind, getattr, lift. rewrite Hp.
  by destruct t as [[|c s]|].
Qed.

Lemma date_or_empty_run (i : PyPDF2.DocumentInformation) name property d
  (w : world) :
  property i = Ok d ->
  date_or_empty (Some i) name property w = (w, Ok (date_value d)).
Proof.
  intros Hp. unfold date_or_empty, Os.bind, getattr, lift. rewrite Hp.
  by destruct d as [d|].
Qed.

Lemma property_raises {A} (i : PyPDF2.DocumentInformation) name
  (property : PyPDF2.DocumentInformation -> result A) (e : exn) (w : world) :
  property i = Raise e ->
  getattr (Some i) name property w = (w, Raise e).
Proof. intros Hp. unfold getattr, lift. by rewrite Hp. Qed.

(** X5: a file that cannot be opened and a file the parser refuses both
    end in the handler, with the error of the open or of the parser.  When
    standard output takes the error line for that file, the line is
    printed, [None] is returned and no file is changed; when it does not,
    [UnicodeEncodeError] is raised and nothing is printed. *)
Theorem extract_metadata_reports_failures `{PdfLibrary} `{Runtime} :
  forall (w : world) (path : list Z) (e : exn),
    (files w !! path = None /\ e = OSError path)
    \/ (exists data, files w !! path = Some data
                     /\ PdfReader data = Raise e) ->
    (stdout_accepts (diagnostic path e) = true ->
     extract_metadata path w
     = (World (files w) (writable w) (stdout w ++ [diagnostic path e]),
        Ok None))
    /\ (stdout_accepts (diagnostic path e) = false ->
        extract_metadata path w
        = (w, Raise (UnicodeEncodeError (diagnostic path e)))).
Proof.
  intros w path e Hcause.
  assert (Hout : outcome w path = Raise e).
  { unfold outcome, extract_metadata_body, Os.bind, open_rb, lift.
    destruct Hcause as [[Hfile ->]|(data & Hfile & Hreader)].
    - by rewrite Hfile.
    - by rewrite Hfile, Hreader. }
  rewrite extract_metadata_eval, Hout. split; by intros ->.
Qed.

Lemma extract_metadata_reports_failures_witness :
  @extract_metadata Sample.library Sample.runtime (lit "docs/z.pdf")
    Sample.start
  = (World Sample.disk (fun _ => true)
       [lit "Error processing file docs/z.pdf: [Errno 2] No such file or directory: 'docs/z.pdf'"],
     Ok None)
  /\ @extract_metadata Sample.library Sample.runtime Sample.odd_name
       Sample.odd
     = (Sample.odd,
        Raise (UnicodeEncodeError
                 (lit "Error processing file " ++ Sample.odd_name
                  ++ lit ": EOF marker not found"))).
Proof.
  split.
  - apply (@extract_metadata_reports_failures Sample.library Sample.runtime
             Sample.start (lit "docs/z.pdf") (OSError (lit "docs/z.pdf"))).
    + left. split; [vm_compute|]; reflexivity.
    + vm_compute. reflexivity.
  - apply (@extract_metadata_reports_failures Sample.library Sample.runtime
             Sample.odd Sample.odd_name
             (LibraryError (lit "EOF marker not found"))).
    + right. exists Sample.png. split; [vm_compute|]; reflexivity.
    + vm_compute. reflexivity.
Defined.

(** X6: what a successful extraction returns, field by field.  When the
    file opens, parses, has an /Info dictionary whose properties can all
    be read, and its first 8 bytes decode, the record holds, in this
    order: each text property, or "" when it is absent or empty; each
    date as the library gave it, or "" when absent; the /Keywords and
    /Description entries as stored, or "" when the key is missing; and
    the sniffed version.  Nothing is printed. *)
Theorem extract_metadata_record `{PdfLibrary} `{Runtime} :
  forall (w : world) (path data header : list Z) (reader : PyPDF2.reader)
         (info : PyPDF2.DocumentInformation)
         (t a c s p : option (list Z)) (cd md : option datetime),
    files w !! path = Some data ->
    PdfReader data = Ok reader ->
    PyPDF2.metadata reader = Ok (Some info) ->
    PyPDF2.title info = Ok t ->
    PyPDF2.author info = Ok a ->
    PyPDF2.creator info = Ok c ->
    PyPDF2.creation_date info = Ok cd ->
    PyPDF2.modification_date info = Ok md ->
    PyPDF2.subject info = Ok s ->
    PyPDF2.producer info = Ok p ->
    Utf8.decode (take 8 data) = Some header ->
    extract_metadata path w
    = (w, Ok (Some [ (lit "Title", text_value t);
                     (lit "Author", text_value a);
                     (lit "Creator", text_value c);
                     (lit "Created", date_value cd);
                     (lit "Modified", date_value md);
                     (lit "Subject", text_value s);
                     (lit "Keywords", raw_value info "/Keywords");
                     (lit "Description", raw_value info "/Description");
                     (lit "Producer", text_value p);
                     (lit "PDF Version",
                      VStr (if startswith header (lit "%PDF-")
                            then strip (drop 5 header)
                            else lit "unknown")) ])).
Proof.
  intros w path data header reader info t a c s p cd md
    Hfile Hreader Hmeta Ht Ha Hc Hcd Hmd Hs Hp Hdec.
  rewrite extract_metadata_eval.
  unfold outcome, extract_metadata_body, Os.bind, open_rb, lift.
  rewrite Hfile, Hreader, Hmeta.
  rewrite !(text_or_empty_run info _ _ _ _ Ht),
    !(text_or_empty_run info _ _ _ _ Ha),
    !(text_or_empty_run info _ _ _ _ Hc),
    !(date_or_empty_run info _ _ _ _ Hcd),
    !(date_or_empty_run info _ _ _ _ Hmd),
    !(text_or_empty_run info _ _ _ _ Hs).
  unfold info_get at 1 2, Os.bind, getattr, lift, ret.
  rewrite !(text_or_empty_run info _ _ _ _ Hp).
  rewrite (extract_pdf_version_eval _ _ _ Hfile), Hdec.
  by destruct (startswith header (lit "%PDF-")).
Qed.

Lemma extract_metadata_record_witness :
  @extract_metadata Sample.library Sample.runtime (lit "docs/a.pdf")
    Sample.start
  = (Sample.start, Ok (Some Sample.record_plain)).
Proof.
  apply (@extract_metadata_record Sample.library Sample.runtime
           Sample.start (lit "docs/a.pdf") Sample.pdf_plain (lit "%PDF-1.4")
           {| PyPDF2.metadata :=
                Ok (Some (Sample.info_of (Some (lit "Report")) None)) |}
           (Sample.info_of (Some (lit "Report")) None)
           (Some (lit "Report")) None None None None None None);
    reflexivity.
Defined.

(** X7: the extractor reads the file at its path and nothing else: in two
    worlds that agree on that file it ends the same way, with the same
    result or the same error, and prints the same lines, whatever else
    differs. *)
Theorem extract_metadata_depends_on_its_file `{PdfLibrary} `{Runtime} :
  forall (w w' : world) (path : list Z),
    files w' !! path = files w !! path ->
    exists (lines : list (list Z)) (res : result (option record)),
      extract_metadata path w
      = (World (files w) (writable w) (stdout w ++ lines), res)
      /\ extract_metadata path w'
         = (World (files w') (writable w') (stdout w' ++ lines), res).
Proof.
  intros w w' path Hfile. rewrite !extract_metadata_eval.
  rewrite (outcome_lookup w w' path Hfile).
  destruct (outcome w path) as [r|e].
  - exists [], (Ok r). rewrite !app_nil_r. by destruct w, w'.
  - destruct (stdout_accepts (diagnostic path e)).
    + by exists [diagnostic path e], (Ok None).
    + exists [], (Raise (UnicodeEncodeError (diagnostic path e))).
      rewrite !app_nil_r. by destruct w, w'.
Qed.

Lemma extract_metadata_depends_on_its_file_witness :
  exists (lines : list (list Z)) (res : result (option record)),
    @extract_metadata Sample.library Sample.runtime (lit "docs/c.pdf")
      Sample.start
    = (World (files Sample.start) (writable Sample.start)
         (stdout Sample.start ++ lines), res)
    /\ @extract_metadata Sample.library Sample.runtime (lit "docs/c.pdf")
         Sample.readonly_start
       = (World (files Sample.readonly_start)
            (writable Sample.readonly_start)
            (stdout Sample.readonly_start ++ lines), res).
Proof.
  apply (@extract_metadata_depends_on_its_file Sample.library Sample.runtime).
  reflexivity.
Defined.

(** X8: the version is sniffed inside the same [try] as the rest.  A file
    the parser accepts, with every property readable, still gives no
    record when its first 8 bytes are not UTF-8: the decoding error is
    reported for the file, on a standard output that takes the line, and
    [None] is returned. *)
Theorem undecodable_header_drops_the_record `{PdfLibrary} `{Runtime} :
  forall (w : world) (path data : list Z) (reader : PyPDF2.reader)
         (info : PyPDF2.DocumentInformation)
         (t a c s p : option (list Z)) (cd md : option datetime),
    files w !! path = Some data ->
    PdfReader data = Ok reader ->
    PyPDF2.metadata reader = Ok (Some info) ->
    PyPDF2.title info = Ok t ->
    PyPDF2.author info = Ok a ->
    PyPDF2.creator info = Ok c ->
    PyPDF2.creation_date info = Ok cd ->
    PyPDF2.modification_date info = Ok md ->
    PyPDF2.subject info = Ok s ->
    PyPDF2.producer info = Ok p ->
    Utf8.decode (take 8 data) = None ->
    stdout_accepts (diagnostic path (UnicodeDecodeError (take 8 data)))
    = true ->
    extract_metadata path w
    = (World (files w) (writable w)
         (stdout w
          ++ [diagnostic path (UnicodeDecodeError (take 8 data))]),
       Ok None).
Proof.
  intros w path data reader info t a c s p cd md
    Hfile Hreader Hmeta Ht Ha Hc Hcd Hmd Hs Hp Hdec Hline.
  assert (Hout : outcome w path
                 = Raise (UnicodeDecodeError (take 8 data))).
  { unfold outcome, extract_metadata_body, Os.bind, open_rb, lift.
    rewrite Hfile, Hreader, Hmeta.
    rewrite !(text_or_empty_run info _ _ _ _ Ht),
      !(text_or_empty_run info _ _ _ _ Ha),
      !(text_or_empty_run info _ _ _ _ Hc),
      !(date_or_empty_run info _ _ _ _ Hcd),
      !(date_or_empty_run info _ _ _ _ Hmd),
      !(text_or_empty_run info _ _ _ _ Hs).
    unfold info_get at 1 2, Os.bind, getattr, lift, ret.
    rewrite !(text_or_empty_run info _ _ _ _ Hp).
    by rewrite (extract_pdf_version_eval _ _ _ Hfile), Hdec. }
  by rewrite extract_metadata_eval, Hout, Hline.
Qed.

Lemma undecodable_header_drops_the_record_witness :
  @extract_metadata Sample.lenient Sample.runtime (lit "docs/e.pdf")
    Sample.start
  = (World Sample.disk (fun _ => true)
       [lit "Error processing file docs/e.pdf: 'utf-8' codec can't decode bytes"],
     Ok None).
Proof.
  apply (@undecodable_header_drops_the_record Sample.lenient Sample.runtime
           Sample.start (lit "docs/e.pdf") Sample.png
           {| PyPDF2.metadata := Ok (Some (Sample.info_of None None)) |}
           (Sample.info_of None None) None None None None None None None);
    reflexivity.
Defined.

(** X9: there is no recovery field by field.  When reading one property
    raises, here the creation date after the title, the author and the
    creator were read, the whole record is lost: the error is reported for
    the file, on a standard output that takes the line, and [None] is
    returned. *)
Theorem unreadable_date_drops_the_record `{PdfLibrary} `{Runtime} :
  forall (w : world) (path data : list Z) (reader : PyPDF2.reader)
         (info : PyPDF2.DocumentInformation)
         (t a c : option (list Z)) (e : exn),
    files w !! path = Some data ->
    PdfReader data = Ok reader ->
    PyPDF2.metadata reader = Ok (Some info) ->
    PyPDF2.title info = Ok t ->
    PyPDF2.author info = Ok a ->
    PyPDF2.creator info = Ok c ->
    PyPDF2.creation_date info = Raise e ->
    stdout_accepts (diagnostic path e) = true ->
    extract_metadata path w
    = (World (files w) (writable w) (stdout w ++ [diagnostic path e]),
       Ok None).
Proof.
  intros w path data reader info t a c e
    Hfile Hreader Hmeta Ht Ha Hc Hcd Hline.
  assert (Hout : outcome w path = Raise e).
  { unfold outcome, extract_metadata_body, Os.bind, open_rb, lift.
    rewrite Hfile, Hreader, Hmeta.
    rewrite !(text_or_empty_run info _ _ _ _ Ht),
      !(text_or_empty_run info _ _ _ _ Ha),
      !(text_or_empty_run info _ _ _ _ Hc).
    unfold date_or_empty at 1, Os.bind.
    by rewrite (property_raises info _ _ _ _ Hcd). }
  by rewrite extract_metadata_eval, Hout, Hline.
Qed.

Lemma unreadable_date_drops_the_record_witness :
  @extract_metadata Sample.lenient Sample.runtime (lit "docs/a.pdf")
    Sample.start
  = (World Sample.disk (fun _ => true)
       [lit "Error processing file docs/a.pdf: time data 'D:2024' does not match format"],
     Ok None).
Proof.
  apply (@unreadable_date_drops_the_record Sample.lenient Sample.runtime
           Sample.start (lit "docs/a.pdf") Sample.pdf_plain
           {| PyPDF2.metadata := Ok (Some Sample.info_bad_date) |}
           Sample.info_bad_date (Some (lit "Report")) None None
           (LibraryError (lit "time data 'D:2024' does not match format")));
    reflexivity.
Defined.

(** ** The Table Writer, again *)

Lemma same_but_refl (path : list Z) (w : world) : same_but path w w.
Proof. by repeat split. Qed.

Lemma same_but_trans (path : list Z) (w1 w2 w3 : world) :
  same_but path w1 w2 -> same_but path w2 w3 -> same_but path w1 w3.
Proof.
  intros (Hw & Hs & Hf) (Hw' & Hs' & Hf'). repeat split; try congruence.
  intros p Hp. by rewrite Hf', Hf.
Qed.

Lemma file_write_same_but (path text : list Z) (w w' : world)
  (res : result unit) :
  file_write path text w = (w', res) -> same_but path w w'.
Proof.
  unfold file_write. destruct (Utf8.encode text) as [data|].
  - intros [= <- _]. repeat split. intros p Hp. simpl.
    by rewrite lookup_alter_ne.
  - intros [= <- _]. apply same_but_refl.
Qed.

Lemma writerow_same_but (path : list Z) (keys : list (list Z)) (r : record)
  (w w' : world) (res : result unit) :
  Csv.writerow path keys r w = (w', res) -> same_but path w w'.
Proof.
  unfold Csv.writerow, Os.bind, lift.
  destruct (Csv.dict_to_list keys r) as [fields|e].
  - apply file_write_same_but.
  - intros [= <- _]. apply same_but_refl.
Qed.

Lemma write_rows_same_but (path : list Z) (keys : list (list Z))
  (records : list record) :
  forall (w w' : world) (res : result unit),
    write_rows path keys records w = (w', res) -> same_but path w w'.
Proof.
  induction records as [|r records IH]; intros w w' res Hrun.
  - injection Hrun as <- _. apply same_but_refl.
  - simpl in Hrun. unfold Os.bind in Hrun.
    destruct (Csv.writerow path keys r w) as [w1 [[]|e]] eqn:Hrow.
    + eapply same_but_trans; [by eapply writerow_same_but|by eapply IH].
    + injection Hrun as <- _. by eapply writerow_same_but.
Qed.

Lemma write_csv_same_but (records : list record) (out : list Z)
  (w w' : world) (res : result unit) :
  write_csv records out w = (w', res) -> same_but out w w'.
Proof.
  intros Hrun. unfold write_csv in Hrun.
  destruct records as [|first rest].
  { injection Hrun as <- _. apply same_but_refl. }
  unfold Os.bind, open_w in Hrun.
  destruct (writable w out) eqn:Hw.
  - set (w1 := World (<[out:=[]]> (files w)) (writable w) (stdout w)) in *.
    assert (H1 : same_but out w w1).
    { repeat split. intros p Hp. simpl. by rewrite lookup_insert_ne. }
    destruct (Csv.writeheader out (Csv.dict_keys first) w1)
      as [w2 [[]|e]] eqn:Hhead.
    + eapply same_but_trans; [exact H1|].
      eapply same_but_trans; [by eapply writerow_same_but|].
      by eapply write_rows_same_but.
    + injection Hrun as <- _.
      eapply same_but_trans; [exact H1|]. by eapply writerow_same_but.
  - injection Hrun as <- _. apply same_but_refl.
Qed.

Lemma write_csv_unwritable (first : record) (rest : list record)
  (out : list Z) (w : world) :
  writable w out = false ->
  write_csv (first :: rest) out w = (w, Raise (OSError out)).
Proof. intros Hw. unfold write_csv, Os.bind, open_w. by rewrite Hw. Qed.

(** X10: whatever the records, and whether it succeeds or raises,
    [write_csv] prints nothing and leaves every file other than the output
    file as it was.  When the output file cannot be opened for writing it
    raises [OSError] and changes nothing at all. *)
Theorem write_csv_touches_only_the_output :
  forall (records : list record) (out : list Z) (w w' : world)
         (res : result unit),
    write_csv records out w = (w', res) ->
    same_but out w w'
    /\ (writable w out = false ->
        w' = w /\ (records <> [] -> res = Raise (OSError out))).
Proof.
  intros records out w w' res Hrun. split.
  - by eapply write_csv_same_but.
  - intros Hw. destruct records as [|first rest].
    + by injection Hrun as <- <-.
    + rewrite (write_csv_unwritable _ _ _ _ Hw) in Hrun.
      by injection Hrun as <- <-.
Qed.

Lemma write_csv_touches_only_the_output_witness :
  same_but (lit "out.csv") Sample.start
    (write_csv [Sample.record_plain; Sample.record_extra] (lit "out.csv")
       Sample.start).1
  /\ write_csv [Sample.record_plain] (lit "out.csv") Sample.readonly_start
     = (Sample.readonly_start, Raise (OSError (lit "out.csv"))).
Proof.
  split.
  - eapply (write_csv_touches_only_the_output
              [Sample.record_plain; Sample.record_extra]).
    apply surjective_pairing.
  - destruct (write_csv_touches_only_the_output [Sample.record_plain]
                (lit "out.csv") Sample.readonly_start
                (write_csv [Sample.record_plain] (lit "out.csv")
                   Sample.readonly_start).1
                (write_csv [Sample.record_plain] (lit "out.csv")
                   Sample.readonly_start).2
                (surjective_pairing _)) as [_ Hfail].
    destruct (Hfail eq_refl) as [Hw Hres].
    rewrite (surjective_pairing (write_csv _ _ _)).
    by rewrite Hw, Hres.
Defined.

(** What [write_csv] leaves for uniform records: the encoded table at the
    output path. *)
Lemma write_csv_run (records : list record) (out data : list Z) (w : world) :
  records <> [] ->
  Forall uniform records ->
  writable w out = true ->
  Utf8.encode (table_text records) = Some data ->
  write_csv records out w
  = (World (<[out := data]> (files w)) (writable w) (stdout w), Ok tt).
Proof.
  intros Hne Hall Hw Henc.
  destruct records as [|first rest]; [done|].
  pose proof (Forall_inv Hall) as Hfirst. unfold uniform in Hfirst.
  unfold table_text in Henc.
  apply encode_app_inv in Henc as (x & y & Hx & Hy & ->).
  unfold write_csv. rewrite Hfirst, writeheader_fields.
  unfold Os.bind, open_w. rewrite Hw.
  rewrite (file_write_run _ _ _ _ Hx).
  rewrite (write_rows_uniform _ _ _ ([] ++ x) y);
    [|simpl; by rewrite lookup_alter_eq, lookup_insert_eq|done..].
  simpl. by rewrite insert_alter_eq, insert_insert_eq.
Qed.

(** X11: the output file is rewritten, never appended to.  For uniform
    records that can be written, the result does not depend on what the
    output file held before, and writing the same records a second time
    leaves the world exactly as the first time. *)
Theorem write_csv_overwrites :
  forall (records : list record) (out data : list Z) (w : world),
    records <> [] ->
    Forall uniform records ->
    writable w out = true ->
    Utf8.encode (table_text records) = Some data ->
    (forall old : list Z,
        write_csv records out
          (World (<[out := old]> (files w)) (writable w) (stdout w))
        = write_csv records out w)
    /\ write_csv records out (write_csv records out w).1
       = write_csv records out w.
Proof.
  intros records out data w Hne Hall Hw Henc.
  rewrite (write_csv_run _ _ _ w Hne Hall Hw Henc).
  split.
  - intros old. rewrite (write_csv_run _ _ data) by done.
    simpl. by rewrite insert_insert_eq.
  - simpl. rewrite (write_csv_run _ _ data) by done.
    simpl. by rewrite insert_insert_eq.
Qed.

Lemma write_csv_overwrites_witness :
  write_csv [Sample.record_plain] (lit "out.csv")
    (write_csv [Sample.record_plain] (lit "out.csv") Sample.start).1
  = write_csv [Sample.record_plain] (lit "out.csv") Sample.start.
Proof.
  apply (write_csv_overwrites [Sample.record_plain] (lit "out.csv")
           (lit "Title;Author;Creator;Created;Modified;Subject;Keywords;Description;Producer;PDF Version"
            ++ [13; 10] ++ lit "Report;;;;;;;;;1.4" ++ [13; 10])
           Sample.start).
  - discriminate.
  - repeat constructor.
  - reflexivity.
  - vm_compute. reflexivity.
Defined.

(** X12: what is written can be read back.  For uniform records that can
    be written, decoding the output file as UTF-8 gives the table text:
    the header line followed by one line per record, in order. *)
Theorem write_csv_reads_back :
  forall (records : list record) (out data : list Z) (w : world),
    records <> [] ->
    Forall uniform records ->
    writable w out = true ->
    Utf8.encode (table_text records) = Some data ->
    exists content,
      files (write_csv records out w).1 !! out = Some content
      /\ Utf8.decode content
         = Some (header_line ++ concat (List.map row_line records)).
Proof.
  intros records out data w Hne Hall Hw Henc.
  rewrite (write_csv_run _ _ _ w Hne Hall Hw Henc).
  exists data. simpl. split; [apply lookup_insert_eq|].
  by apply decode_encode.
Qed.

Lemma write_csv_reads_back_witness :
  exists content,
    files (write_csv [Sample.record_twolines] (lit "out.csv")
             Sample.start).1 !! lit "out.csv" = Some content
    /\ Utf8.decode content
       = Some (header_line ++ concat (List.map row_line
                                        [Sample.record_twolines])).
Proof.
  eapply (write_csv_reads_back [Sample.record_twolines] (lit "out.csv")).
  - discriminate.
  - repeat constructor.
  - reflexivity.
  - vm_compute. reflexivity.
Defined.

(** ** Single-file mode *)

Lemma process_file_failed `{PdfLibrary} `{Runtime} (w : world)
  (path out : list Z) (e : exn) :
  outcome w path = Raise e ->
  stdout_accepts (diagnostic path e) = true ->
  process_file path out w
  = (World (files w) (writable w) (stdout w ++ [diagnostic path e]), Ok tt).
Proof.
  intros Hout Hline. unfold process_file, Os.bind.
  by rewrite extract_metadata_eval, Hout, Hline.
Qed.

Lemma process_file_saved `{PdfLibrary} `{Runtime} (w : world)
  (path out data : list Z) (m : record) :
  outcome w path = Ok (Some m) ->
  writable w out = true ->
  Utf8.encode (table_text [m]) = Some data ->
  stdout_accepts (lit "Metadata is saved as " ++ out ++ lit ".") = true ->
  process_file path out w
  = (World (<[out := data]> (files w)) (writable w)
       (stdout w ++ [lit "Metadata is saved as " ++ out ++ lit "."]),
     Ok tt).
Proof.
  intros Hout Hw Henc Hline. unfold process_file, Os.bind.
  rewrite extract_metadata_eval, Hout.
  destruct (body_record _ _ _ Hout) as (m' & [= <-] & Hm).
  rewrite (truthy_uniform _ Hm).
  rewrite (write_csv_run [m] out data w); [|done| |done|done].
  - unfold print. by rewrite Hline.
  - by constructor.
Qed.

Lemma process_file_unwritable `{PdfLibrary} `{Runtime} (w : world)
  (path out : list Z) (m : record) :
  outcome w path = Ok (Some m) ->
  writable w out = false ->
  process_file path out w = (w, Raise (OSError out)).
Proof.
  intros Hout Hw. unfold process_file, Os.bind.
  rewrite extract_metadata_eval, Hout.
  destruct (body_record _ _ _ Hout) as (m' & [= <-] & Hm).
  by rewrite (truthy_uniform _ Hm), (write_csv_unwritable _ _ _ _ Hw).
Qed.

(** X13: the three ways single-file mode ends, on a standard output that
    takes the line to print.  When the extraction fails, only the error
    line is printed and no file is written.  When it succeeds and the
    output can be written, the output file holds the header and the one
    row, and "Metadata is saved as {output}." is printed.  When it
    succeeds and the output cannot be opened, [OSError] propagates and no
    success message is printed. *)
Theorem process_file_outcomes `{PdfLibrary} `{Runtime} :
  forall (w : world) (path out : list Z),
    (forall e,
        outcome w path = Raise e ->
        stdout_accepts (diagnostic path e) = true ->
        process_file path out w
        = (World (files w) (writable w) (stdout w ++ [diagnostic path e]),
           Ok tt))
    /\ (forall (m : record) (data : list Z),
           outcome w path = Ok (Some m) ->
           writable w out = true ->
           Utf8.encode (header_line ++ row_line m) = Some data ->
           stdout_accepts (lit "Metadata is saved as " ++ out ++ lit ".")
           = true ->
           process_file path out w
           = (World (<[out := data]> (files w)) (writable w)
                (stdout w
                 ++ [lit "Metadata is saved as " ++ out ++ lit "."]),
              Ok tt))
    /\ (forall m : record,
           outcome w path = Ok (Some m) ->
           writable w out = false ->
           process_file path out w = (w, Raise (OSError out))).
Proof.
  intros w path out. split; [|split].
  - intros e. apply process_file_failed.
  - intros m data Hout Hw Henc Hline. apply (process_file_saved _ _ _ _ m);
      try done.
    unfold table_text. simpl. by rewrite app_nil_r.
  - intros m. apply process_file_unwritable.
Qed.

Lemma process_file_outcomes_witness :
  @process_file Sample.library Sample.runtime (lit "docs/c.pdf")
    (lit "out.csv") Sample.start
  = (World Sample.disk (fun _ => true)
       [lit "Error processing file docs/c.pdf: 'NoneType' object has no attribute 'title'"],
     Ok tt)
  /\ (exists data,
         @process_file Sample.library Sample.runtime (lit "docs/a.pdf")
           (lit "out.csv") Sample.start
         = (World (<[lit "out.csv" := data]> Sample.disk) (fun _ => true)
              [lit "Metadata is saved as out.csv."],
            Ok tt))
  /\ @process_file Sample.library Sample.runtime (lit "docs/a.pdf")
       (lit "out.csv") Sample.readonly_start
     = (Sample.readonly_start, Raise (OSError (lit "out.csv"))).
Proof.
  destruct (@process_file_outcomes Sample.library Sample.runtime
              Sample.start (lit "docs/c.pdf") (lit "out.csv"))
    as (Hfail & _ & _).
  destruct (@process_file_outcomes Sample.library Sample.runtime
              Sample.start (lit "docs/a.pdf") (lit "out.csv"))
    as (_ & Hsaved & _).
  destruct (@process_file_outcomes Sample.library Sample.runtime
              Sample.readonly_start (lit "docs/a.pdf") (lit "out.csv"))
    as (_ & _ & Hraise).
  split; [|split].
  - apply (Hfail (AttributeError (lit "title")));
      vm_compute; reflexivity.
  - eexists. apply (Hsaved Sample.record_plain).
    + vm_compute. reflexivity.
    + reflexivity.
    + vm_compute. reflexivity.
    + vm_compute. reflexivity.
  - apply (Hraise Sample.record_plain); [vm_compute|]; reflexivity.
Defined.



(** ** Directory mode *)

Lemma parsed_uniform `{PdfLibrary} (w : world) (paths : list (list Z)) :
  Forall uniform (flat_map (parsed w) paths).
Proof.
  apply Forall_forall. intros m Hm.
  apply list_elem_of_In, in_flat_map in Hm as (p & _ & Hm).
  unfold parsed in Hm.
  destruct (outcome w p) as [[m'|]|e] eqn:Hout; try (by destruct Hm).
  destruct Hm as [<-|[]].
  by destruct (body_record _ _ _ Hout) as (m'' & [= <-] & Hu).
Qed.

(** X15: directory mode from end to end, on a standard output that
    takes the lines to print.  When at least one file parsed and the
    output can be written, the output file holds the table of the records
    of the files that parsed, in the order of the walk, the error lines of
    the others are printed, and the number in the final message is the
    number of rows under the header.  When the output cannot be opened,
    [OSError] propagates after the error lines and no success message is
    printed. *)
Theorem process_directory_writes_the_table `{U : UnicodeData}
  `{PdfLibrary} `{Runtime} :
  forall (w : world) (dir out : list Z),
    let paths := pdf_paths (os_walk w dir) in
    let records := flat_map (parsed w) paths in
    (forall data : list Z,
        records <> [] ->
        writable w out = true ->
        Utf8.encode (header_line ++ concat (List.map row_line records))
        = Some data ->
        printable
          (diagnostics w paths
           ++ [lit "Metadata from " ++ str_of_nat (length records)
               ++ lit " files was saved in " ++ out ++ lit "."]) ->
        process_directory dir out w
        = (World (<[out := data]> (files w)) (writable w)
             (stdout w ++ diagnostics w paths
              ++ [lit "Metadata from " ++ str_of_nat (length records)
                  ++ lit " files was saved in " ++ out ++ lit "."]),
           Ok tt))
    /\ (records <> [] ->
        writable w out = false ->
        printable (diagnostics w paths) ->
        process_directory dir out w
        = (World (files w) (writable w) (stdout w ++ diagnostics w paths),
           Raise (OSError out))).
Proof.
  intros w dir out paths records. split.
  - intros data Hne Hw Henc [Hlines Hlast%Forall_inv]%Forall_app.
    unfold process_directory, Os.bind.
    rewrite walk_dirs_run by done. fold paths. rewrite app_nil_l.
    fold records.
    destruct records as [|m rest] eqn:E; [done|].
    rewrite (write_csv_run (m :: rest) out data); try done.
    + unfold print. rewrite Hlast. simpl. by rewrite <- app_assoc.
    + rewrite <- E. apply parsed_uniform.
  - intros Hne Hw Hlines. unfold process_directory, Os.bind.
    rewrite walk_dirs_run by done. fold paths. rewrite app_nil_l.
    fold records.
    destruct records as [|m rest] eqn:E; [done|].
    by rewrite write_csv_unwritable.
Qed.

Lemma process_directory_writes_the_table_witness :
  (exists data,
      @process_directory Sample.unicode Sample.library Sample.runtime
        (lit "docs") (lit "out.csv") Sample.start
      = (World (<[lit "out.csv" := data]> Sample.disk) (fun _ => true)
           [lit "Error processing file docs/c.pdf: 'NoneType' object has no attribute 'title'";
            lit "Metadata from 2 files was saved in out.csv."],
         Ok tt))
  /\ @process_directory Sample.unicode Sample.library Sample.runtime
       (lit "docs") (lit "out.csv") Sample.readonly_start
     = (World Sample.disk (fun _ => false)
          [lit "Error processing file docs/c.pdf: 'NoneType' object has no attribute 'title'"],
        Raise (OSError (lit "out.csv"))).
Proof.
  split.
  - destruct (@process_directory_writes_the_table Sample.unicode
                Sample.library Sample.runtime Sample.start (lit "docs")
                (lit "out.csv")) as [Hok _].
    eexists. erewrite Hok.
    2: { vm_compute. discriminate. }
    2: { reflexivity. }
    2: { vm_compute. reflexivity. }
    2: { apply printable_check. vm_compute. reflexivity. }
    reflexivity.
  - destruct (@process_directory_writes_the_table Sample.unicode
                Sample.library Sample.runtime Sample.readonly_start
                (lit "docs") (lit "out.csv")) as [_ Hraise].
    rewrite Hraise.
    + vm_compute. reflexivity.
    + vm_compute. discriminate.
    + reflexivity.
    + apply printable_check. vm_compute. reflexivity.
Defined.

(** ** The entry point *)

Lemma checked_none (x : option (list Z)) (test : list Z -> bool) :
  (forall f, x = Some f -> f = [] \/ test f = false) ->
  checked x test = None.
Proof.
  intros Hx. destruct x as [[|c s]|]; [done| |done].
  destruct (Hx (c :: s) eq_refl) as [?|Htest]; [done|].
  simpl. by rewrite Htest.
Qed.

Lemma checked_some (x : option (list Z)) (test : list Z -> bool)
  (f : list Z) :
  x = Some f -> f <> [] -> test f = true -> checked x test = Some f.
Proof.
  intros -> Hf Htest. destruct f as [|c s]; [done|].
  simpl. by rewrite Htest.
Qed.

(** X16: when the file argument is missing, empty or not a regular file,
    and the directory argument is missing, empty or not a directory,
    [main] prints the one line asking for a valid path, on a standard
    output that takes it, returns normally and writes no file. *)
Theorem main_rejects_invalid_paths `{U : UnicodeData} `{PdfLibrary}
  `{Runtime} `{OsPath} :
  forall (args : Namespace) (w : world),
    (forall f, arg_file args = Some f -> f = [] \/ isfile w f = false) ->
    (forall d, arg_directory args = Some d -> d = [] \/ isdir w d = false) ->
    stdout_accepts
      (lit "Please enter a valid path to a single pdffile or a directory.")
    = true ->
    main args w
    = (World (files w) (writable w)
         (stdout w
          ++ [lit "Please enter a valid path to a single pdffile or a directory."]),
       Ok tt).
Proof.
  intros args w Hfile Hdir Hline. unfold main.
  rewrite (checked_none _ _ Hfile), (checked_none _ _ Hdir).
  unfold print. by rewrite Hline.
Qed.

Lemma main_rejects_invalid_paths_witness :
  @main Sample.unicode Sample.library Sample.runtime Sample.paths
    {| arg_name := lit "report";
       arg_file := Some (lit "docs");
       arg_directory := None |}
    Sample.start
  = (World Sample.disk (fun _ => true)
       [lit "Please enter a valid path to a single pdffile or a directory."],
     Ok tt).
Proof.
  apply (@main_rejects_invalid_paths Sample.unicode Sample.library
           Sample.runtime Sample.paths).
  - intros f [= <-]. right. vm_compute. reflexivity.
  - intros d Hd. discriminate.
  - vm_compute. reflexivity.
Defined.

Lemma files_kept_but_refl (path : list Z) (w : world) :
  files_kept_but path w w.
Proof. by split. Qed.

Lemma print_keeps `{Runtime} (line out : list Z) (w w' : world)
  (res : result unit) :
  print line w = (w', res) -> files_kept_but out w w'.
Proof.
  unfold print. destruct (stdout_accepts line); intros [= <- _]; by split.
Qed.

Lemma files_kept_but_trans (path : list Z) (w1 w2 w3 : world) :
  files_kept_but path w1 w2 -> files_kept_but path w2 w3 ->
  files_kept_but path w1 w3.
Proof.
  intros [Hw Hf] [Hw' Hf']. split; [congruence|].
  intros p Hp. by rewrite Hf', Hf.
Qed.

Lemma extract_metadata_keeps `{PdfLibrary} `{Runtime} (path out : list Z)
  (w w' : world) (res : result (option record)) :
  extract_metadata path w = (w', res) -> files_kept_but out w w'.
Proof.
  rewrite extract_metadata_eval.
  destruct (outcome w path) as [r|e].
  - intros [= <- _]. apply files_kept_but_refl.
  - destruct (stdout_accepts _); intros [= <- _]; by split.
Qed.

Lemma write_csv_keeps (records : list record) (out : list Z)
  (w w' : world) (res : result unit) :
  write_csv records out w = (w', res) -> files_kept_but out w w'.
Proof. intros (Hw & _ & Hf)%write_csv_same_but. by split. Qed.

Lemma process_file_keeps `{PdfLibrary} `{Runtime} (path out : list Z)
  (w w' : world) (res : result unit) :
  process_file path out w = (w', res) -> files_kept_but out w w'.
Proof.
  unfold process_file, Os.bind.
  destruct (extract_metadata path w) as [w1 [[m|]|e]] eqn:Hextract;
    apply (extract_metadata_keeps _ out) in Hextract.
  - destruct (truthy_dict m).
    + destruct (write_csv [m] out w1) as [w2 [[]|e]] eqn:Hwrite;
        apply write_csv_keeps in Hwrite.
      * intros Hprint%(print_keeps _ out).
        eapply files_kept_but_trans; [exact Hextract|].
        by eapply files_kept_but_trans.
      * intros [= <- _]. by eapply files_kept_but_trans.
    + by intros [= <- _].
  - by intros [= <- _].
  - by intros [= <- _].
Qed.

Lemma process_directory_keeps `{U : UnicodeData} `{PdfLibrary} `{Runtime}
  (dir out : list Z) (w w' : world) (res : result unit) :
  process_directory dir out w = (w', res) -> files_kept_but out w w'.
Proof.
  unfold process_directory, Os.bind.
  destruct (walk_dirs (os_walk w dir) [] w) as [w1 [l|e]] eqn:Hwalk;
    destruct (walk_dirs_keeps _ _ _ _ _ Hwalk) as (Hf1 & Hw1 & _).
  - assert (H1 : files_kept_but out w w1).
    { split; [done|]. intros p _. by rewrite Hf1. }
    destruct l as [|m rest].
    + intros Hprint%(print_keeps _ out).
      by eapply files_kept_but_trans.
    + destruct (write_csv (m :: rest) out w1) as [w2 [[]|e]] eqn:Hwrite;
        apply write_csv_keeps in Hwrite.
      * intros Hprint%(print_keeps _ out).
        eapply files_kept_but_trans; [exact H1|].
        by eapply files_kept_but_trans.
      * intros [= <- _]. by eapply files_kept_but_trans.
  - intros [= <- _]. split; [done|]. intros p _. by rewrite Hf1.
Qed.

(** X17: whatever the arguments and however the run ends, [main] changes
    no file other than the one at the normalised output name, and under
    the property of the Unicode case tables that name ends in ".csv": a
    file whose contents differ after the run is named so. *)
Theorem main_touches_only_the_output `{U : UnicodeData} `{PdfLibrary}
  `{Runtime} `{OsPath} :
  forall (args : Namespace) (w w' : world) (res : result unit),
    main args w = (w', res) ->
    writable w' = writable w
    /\ forall p,
        files w' !! p <> files w !! p ->
        p = ensure_csv_extension (arg_name args)
        /\ (lower_keeps_ascii_apart -> ends_in_csv_ignoring_case p).
Proof.
  intros args w w' res Hrun.
  assert (Hkept : files_kept_but (ensure_csv_extension (arg_name args))
                    w w').
  { unfold main in Hrun.
    destruct (checked (arg_file args) (isfile w)) as [file|].
    - by eapply process_file_keeps.
    - destruct (checked (arg_directory args) (isdir w)) as [directory|].
      + by eapply process_directory_keeps.
      + by eapply print_keeps. }
  destruct Hkept as [Hw Hf]. split; [done|].
  intros p Hp.
  destruct (decide (p = ensure_csv_extension (arg_name args))) as [->|Hne].
  - split; [done|]. intros Hunicode.
    rewrite ensure_csv_extension_unfold by done.
    destruct (ci_prefix (rev (arg_name args)) (rev (lit ".csv"))) eqn:E.
    + by apply ci_prefix_csv.
    + exists (arg_name args), 99, 115, 118. split; [reflexivity|lia].
  - by destruct Hp, (Hf p).
Qed.

Lemma main_touches_only_the_output_witness :
  files (@main Sample.unicode Sample.library Sample.runtime Sample.paths
           {| arg_name := lit "report";
              arg_file := Some (lit "docs/a.pdf");
              arg_directory := None |}
           Sample.start).1 !! lit "docs/a.pdf"
  = files Sample.start !! lit "docs/a.pdf".
Proof.
  destruct (@main_touches_only_the_output Sample.unicode Sample.library
              Sample.runtime Sample.paths
              {| arg_name := lit "report";
                 arg_file := Some (lit "docs/a.pdf");
                 arg_directory := None |}
              Sample.start _ _ (surjective_pairing _)) as [_ Honly].
  match goal with
  | |- ?x = ?y => destruct (decide (x = y)) as [Heq|Hne]; [exact Heq|]
  end.
  destruct (Honly _ Hne) as [Hp _]. discriminate Hp.
Defined.

(** X18: single-file mode through [main].  With a file argument that
    names a regular file which parses, an output that can be written and
    a standard output that takes the message, the one-row table goes to
    the normalised output name, the name with ".csv" appended when it
    lacked it, and the message printed names that file, not the name
    given. *)
Theorem main_single_file `{U : UnicodeData} `{PdfLibrary} `{Runtime}
  `{OsPath} :
  forall (args : Namespace) (w : world) (f data : list Z) (m : record),
    arg_file args = Some f ->
    f <> [] ->
    isfile w f = true ->
    outcome w f = Ok (Some m) ->
    writable w (ensure_csv_extension (arg_name args)) = true ->
    Utf8.encode (header_line ++ row_line m) = Some data ->
    stdout_accepts
      (lit "Metadata is saved as " ++ ensure_csv_extension (arg_name args)
       ++ lit ".") = true ->
    main args w
    = (World (<[ensure_csv_extension (arg_name args) := data]> (files w))
         (writable w)
         (stdout w
          ++ [lit "Metadata is saved as "
              ++ ensure_csv_extension (arg_name args) ++ lit "."]),
       Ok tt).
Proof.
  intros args w f data m Hf Hne Hisfile Hout Hw Henc Hline. unfold main.
  rewrite (checked_some _ _ f Hf Hne Hisfile).
  apply (process_file_saved _ _ _ _ m); try done.
  unfold table_text. simpl. by rewrite app_nil_r.
Qed.

Lemma main_single_file_witness :
  exists data,
    @main Sample.unicode Sample.library Sample.runtime Sample.paths
      {| arg_name := lit "report";
         arg_file := Some (lit "docs/a.pdf");
         arg_directory := None |}
      Sample.start
    = (World (<[lit "report.csv" := data]> Sample.disk) (fun _ => true)
         [lit "Metadata is saved as report.csv."],
       Ok tt).
Proof.
  eexists.
  apply (@main_single_file Sample.unicode Sample.library Sample.runtime
           Sample.paths
           {| arg_name := lit "report";
              arg_file := Some (lit "docs/a.pdf");
              arg_directory := None |}
           Sample.start (lit "docs/a.pdf") _ Sample.record_plain).
  - reflexivity.
  - discriminate.
  - vm_compute. reflexivity.
  - vm_compute. reflexivity.
  - reflexivity.
  - vm_compute. reflexivity.
  - vm_compute. reflexivity.
Defined.
